(** * Order service (cart and order routes): a shallow embedding

    The development follows [services/order-service/src/server.js]:
    the shopping cart kept in the Redis cache and the orders kept in the
    MongoDB collection, with one Rocq function per Express route.

    Conventions of the embedding.
    - A request handler is a function from the state of the two stores to
      a response and a new state.  The code inside [try { ... }] lives in
      a small state-and-exception monad; the [catch] block is the handler
      that turns a thrown exception into the 500 response.
    - What the outside world decides during one request (whether a store
      call throws, the clock, the identifier the driver generates) is
      read from a record [env].
    - JSON numbers are the integers, carried as [Z]; rounding of doubles
      is outside the model.  [price] and [quantity] are numbers, as the
      data model has them; the fields whose dynamic type the routes test
      ([itemId], [userId], [deliveryAddress], [notes], [paymentMethod],
      [status]) are JavaScript values.
    - The cache stores the cart itself: [JSON.parse (JSON.stringify c)]
      is [c] for the carts of this model.
    - The health checks are not part of the development.

    The validation of the menu service and the registration and login of
    the user service follow the order service, each in a module of its
    own. *)

From Stdlib Require Import ZArith Ascii String List Bool Lia.
From Stdlib Require QArith Qround.
From stdpp Require Import gmap strings list pretty.

Local Open Scope Z_scope.

(** ** JavaScript values and the runtime operations the routes use *)

Module JS.

(** The values a JSON body field can hold (objects and arrays apart),
    [undefined] for an absent field, and [NaN], which [parseInt]
    produces. *)
Inductive value : Type :=
| JUndefined
| JNull
| JBool (b : bool)
| JNum (n : Z)
| JNaN
| JStr (s : string).

(** [a === b] *)
Definition strict_eq (a b : value) : bool :=
  match a, b with
  | JUndefined, JUndefined => true
  | JNull, JNull => true
  | JBool x, JBool y => Bool.eqb x y
  | JNum x, JNum y => x =? y
  | JStr x, JStr y => String.eqb x y
  | _, _ => false
  end.

(** ToBoolean, as used by [!v] and [v || d]. *)
Definition truthy (v : value) : bool :=
  match v with
  | JUndefined | JNull | JNaN => false
  | JBool b => b
  | JNum n => negb (n =? 0)
  | JStr s => negb (String.eqb s "")
  end.

(** [v || d] *)
Definition or_else (v d : value) : value := if truthy v then v else d.

(** ToString, as used by a template literal and by [parseInt]. *)
Definition to_string (v : value) : string :=
  match v with
  | JUndefined => "undefined"
  | JNull => "null"
  | JBool true => "true"
  | JBool false => "false"
  | JNum n => pretty n
  | JNaN => "NaN"
  | JStr s => s
  end.

Definition is_number (v : value) : bool :=
  match v with JNum _ | JNaN => true | _ => false end.

(** *** parseInt, with no radix argument

    Leading white space is skipped (the ASCII white space: tab, line
    feed, vertical tab, form feed, carriage return, space), then a sign,
    then a [0x] prefix that selects radix 16; the longest run of digits
    of the radix is the result, and [NaN] when there is none. *)

Definition is_white_space (c : ascii) : bool :=
  let n := Z.of_nat (nat_of_ascii c) in
  ((9 <=? n) && (n <=? 13)) || (n =? 32).

Fixpoint trim_start (s : string) : string :=
  match s with
  | String c r => if is_white_space c then trim_start r else s
  | EmptyString => s
  end.

Definition digit_value (c : ascii) : option Z :=
  let n := Z.of_nat (nat_of_ascii c) in
  if (48 <=? n) && (n <=? 57) then Some (n - 48)
  else if (97 <=? n) && (n <=? 122) then Some (n - 87)
  else if (65 <=? n) && (n <=? 90) then Some (n - 55)
  else None.

(** The longest prefix of radix-[R] digits, read as a number; [acc] is
    [None] until a digit has been read. *)
Fixpoint read_digits (R : Z) (s : string) (acc : option Z) : option Z :=
  match s with
  | String c r =>
      match digit_value c with
      | Some d =>
          if d <? R then read_digits R r (Some (default 0 acc * R + d))
          else acc
      | None => acc
      end
  | EmptyString => acc
  end.

Definition strip_sign (s : string) : Z * string :=
  match s with
  | String "-" r => (-1, r)
  | String "+" r => (1, r)
  | _ => (1, s)
  end.

Definition strip_radix (s : string) : Z * string :=
  match s with
  | String "0" (String "x" r) => (16, r)
  | String "0" (String "X" r) => (16, r)
  | _ => (10, s)
  end.

Definition parseInt_string (s : string) : value :=
  let '(sign, s1) := strip_sign (trim_start s) in
  let '(R, s2) := strip_radix s1 in
  match read_digits R s2 None with
  | Some n => JNum (sign * n)
  | None => JNaN
  end.

Definition parseInt (v : value) : value := parseInt_string (to_string v).

End JS.
Import JS.

(** ** Data model *)

Module CartItem.
Record t : Type := mk
  { itemId : value; itemName : string; price : Z; quantity : Z }.
End CartItem.

Module Cart.
Record t : Type := mk { items : list CartItem.t; total : Z }.
End Cart.

Module Order.
Record t : Type := mk
  { userId : value;
    items : list CartItem.t;
    totalAmount : Z;
    deliveryAddress : value;
    notes : value;
    paymentMethod : value;
    status : value;
    createdAt : Z;
    updatedAt : Z }.
End Order.

(** ** The two stores *)

(** A cache entry: the value written by [setEx] and its time to live. *)
Record entry : Type := Entry { ttl : Z; cached : Cart.t }.

(** An order identifier is represented by its [toHexString ()]: 24
    lower-case hexadecimal digits. *)
Abbreviation oid := string (only parsing).

Record world : Type := World
  { cache : gmap string entry;
    orders : gmap string Order.t }.

Record env : Type := Env
  { redis_get_ok : bool;
    redis_setEx_ok : bool;
    redis_del_ok : bool;
    mongo_ok : bool;
    now : Z;
    generated_id : oid }.

(** ** The monad of the code inside [try] *)

Inductive outcome (A : Type) : Type :=
| Returned (a : A)
| Thrown.
Arguments Returned {A} a.
Arguments Thrown {A}.

Definition M (A : Type) : Type := world -> outcome A * world.

Definition ret {A} (a : A) : M A := fun w => (Returned a, w).

Definition throw {A} : M A := fun w => (Thrown, w).

Definition bind {A B} (m : M A) (k : A -> M B) : M B :=
  fun w =>
    match m w with
    | (Returned a, w') => k a w'
    | (Thrown, w') => (Thrown, w')
    end.

Notation "x <- m ;; k" := (bind m (fun x => k))
  (at level 100, m at next level, right associativity).
Notation "m ;;; k" := (bind m (fun _ => k))
  (at level 100, right associativity).

(** [try { body } catch (error) { handler }] *)
Definition try_catch {A} (body : M A) (handler : A) : world -> A * world :=
  fun w =>
    match body w with
    | (Returned a, w') => (a, w')
    | (Thrown, w') => (handler, w')
    end.

(** *** Redis client *)

Definition redis_get (e : env) (k : string) : M (option Cart.t) :=
  fun w =>
    if redis_get_ok e then (Returned (cached <$> cache w !! k), w)
    else (Thrown, w).

Definition redis_setEx (e : env) (k : string) (seconds : Z) (c : Cart.t)
  : M unit :=
  fun w =>
    if redis_setEx_ok e
    then (Returned tt,
          {| cache := <[k := Entry seconds c]> (cache w); orders := orders w |})
    else (Thrown, w).

Definition redis_del (e : env) (k : string) : M unit :=
  fun w =>
    if redis_del_ok e
    then (Returned tt, {| cache := delete k (cache w); orders := orders w |})
    else (Thrown, w).

(** *** MongoDB driver *)

Definition is_hex_digit (c : ascii) : bool :=
  match digit_value c with
  | Some d => d <? 16
  | None => false
  end.

Definition lower_case (c : ascii) : ascii :=
  let n := nat_of_ascii c in
  if (65 <=? Z.of_nat n) && (Z.of_nat n <=? 90)
  then ascii_of_nat (n + 32) else c.

Fixpoint to_lower (s : string) : string :=
  match s with
  | String c r => String (lower_case c) (to_lower r)
  | EmptyString => EmptyString
  end.

(** [new ObjectId (s)] for a string [s]: 24 hexadecimal digits name an
    identifier, any other string makes the constructor throw ([None]). *)
Definition ObjectId (s : string) : option oid :=
  if (Z.of_nat (String.length s) =? 24)
     && forallb is_hex_digit (list_ascii_of_string s)
  then Some (to_lower s) else None.

Definition new_ObjectId (s : string) : M oid :=
  fun w =>
    match ObjectId s with
    | Some i => (Returned i, w)
    | None => (Thrown, w)
    end.

(** [insertOne (doc)]: the driver gives the document the identifier it
    generated; the server refuses a duplicate [_id]. *)
Definition insertOne (e : env) (doc : Order.t) : M oid :=
  fun w =>
    if mongo_ok e then
      match orders w !! generated_id e with
      | None =>
          (Returned (generated_id e),
           {| cache := cache w;
              orders := <[generated_id e := doc]> (orders w) |})
      | Some _ => (Thrown, w)
      end
    else (Thrown, w).

(** [findOne ({ _id })] *)
Definition findOne (e : env) (i : oid) : M (option Order.t) :=
  fun w =>
    if mongo_ok e then (Returned (orders w !! i), w) else (Thrown, w).

(** [updateOne ({ _id }, { $set })]; the result is [matchedCount]. *)
Definition updateOne (e : env) (i : oid) (set : Order.t -> Order.t) : M Z :=
  fun w =>
    if mongo_ok e then
      match orders w !! i with
      | Some o =>
          (Returned 1,
           {| cache := cache w; orders := <[i := set o]> (orders w) |})
      | None => (Returned 0, w)
      end
    else (Thrown, w).

(** ** Responses *)

Inductive body : Type :=
| CartBody (c : Cart.t)
| ErrorBody (error : string)
| ClearedBody (message : string) (c : Cart.t)
| PlacedBody (message : string) (orderId : oid) (order : Order.t)
| OrderBody (_id : oid) (order : Order.t)
| StatusBody (message : string) (status : value).

Record response : Type := Response { code : Z; json : body }.

(** [res.json (b)] and [res.status (c).json (b)] *)
Definition res_json (b : body) : response := Response 200 b.
Definition res_status (c : Z) (b : body) : response := Response c b.

(** ** Helper functions *)

(** [`cart:user:${userId}`] *)
Definition getCartKey (userId : value) : string :=
  "cart:user:" +:+ to_string userId.

(** [Array.prototype.findIndex] *)
Fixpoint findIndex_from {A} (p : A -> bool) (l : list A) (i : Z) : Z :=
  match l with
  | [] => -1
  | x :: r => if p x then i else findIndex_from p r (i + 1)
  end.

Definition findIndex {A} (p : A -> bool) (l : list A) : Z :=
  findIndex_from p l 0.

(** [items.reduce ((sum, item) => sum + (item.price * item.quantity), 0)] *)
Definition reduce_total (its : list CartItem.t) : Z :=
  fold_left
    (fun sum item => sum + CartItem.price item * CartItem.quantity item)
    its 0.

Definition empty_cart : Cart.t := Cart.mk [] 0.

Definition with_quantity (q : Z) (item : CartItem.t) : CartItem.t :=
  CartItem.mk (CartItem.itemId item) (CartItem.itemName item)
              (CartItem.price item) q.

(** ** Shopping cart routes (Redis) *)

(** [GET /api/cart/:userId] *)
Definition getCart (e : env) (userId : string) : world -> response * world :=
  let cartKey := getCartKey (JStr userId) in
  try_catch
    (cartData <- redis_get e cartKey ;;
     match cartData with
     | None => ret (res_json (CartBody empty_cart))
     | Some cart => ret (res_json (CartBody cart))
     end)
    (res_status 500 (ErrorBody "Failed to get cart")).

(** [POST /api/cart/:userId/items]; the body is
    [{ itemId, itemName, price, quantity }]. *)
Definition addItem (e : env) (userId : string) (req : CartItem.t)
  : world -> response * world :=
  let cartKey := getCartKey (JStr userId) in
  try_catch
    (cartData <- redis_get e cartKey ;;
     let cart := default empty_cart cartData in
     let existingItemIndex :=
       findIndex
         (fun item => strict_eq (CartItem.itemId item) (CartItem.itemId req))
         (Cart.items cart) in
     let items :=
       if existingItemIndex >=? 0 then
         alter
           (fun item =>
              with_quantity (CartItem.quantity item + CartItem.quantity req)
                            item)
           (Z.to_nat existingItemIndex) (Cart.items cart)
       else
         Cart.items cart ++
         [CartItem.mk (CartItem.itemId req) (CartItem.itemName req)
                      (CartItem.price req) (CartItem.quantity req)] in
     let cart := Cart.mk items (reduce_total items) in
     redis_setEx e cartKey 86400 cart ;;;
     ret (res_json (CartBody cart)))
    (res_status 500 (ErrorBody "Failed to add item to cart")).

(** [PUT /api/cart/:userId/items/:itemId]; the body is [{ quantity }]. *)
Definition updateItemQuantity
  (e : env) (userId : string) (itemIdParam : string) (quantity : Z)
  : world -> response * world :=
  let itemId := parseInt (JStr itemIdParam) in
  let cartKey := getCartKey (JStr userId) in
  try_catch
    (cartData <- redis_get e cartKey ;;
     match cartData with
     | None => ret (res_status 404 (ErrorBody "Cart not found"))
     | Some cart =>
         let itemIndex :=
           findIndex (fun item => strict_eq (CartItem.itemId item) itemId)
                     (Cart.items cart) in
         if itemIndex =? -1 then
           ret (res_status 404 (ErrorBody "Item not found in cart"))
         else
           let items :=
             if quantity <=? 0 then
               delete (Z.to_nat itemIndex) (Cart.items cart)
             else
               alter (with_quantity quantity) (Z.to_nat itemIndex)
                     (Cart.items cart) in
           let cart := Cart.mk items (reduce_total items) in
           redis_setEx e cartKey 86400 cart ;;;
           ret (res_json (CartBody cart))
     end)
    (res_status 500 (ErrorBody "Failed to update cart")).

(** [DELETE /api/cart/:userId] *)
Definition clearCart (e : env) (userId : string) : world -> response * world :=
  let cartKey := getCartKey (JStr userId) in
  try_catch
    (redis_del e cartKey ;;;
     ret (res_json (ClearedBody "Cart cleared" empty_cart)))
    (res_status 500 (ErrorBody "Failed to clear cart")).

(** ** Order routes (MongoDB) *)

(** The body of [POST /api/orders]. *)
Record order_request : Type := OrderRequest
  { req_userId : value;
    req_deliveryAddress : value;
    req_notes : value;
    req_paymentMethod : value }.

(** The order document of [POST /api/orders]: [const order = { ... }];
    both [new Date ()] read the clock of the request. *)
Definition order_document (e : env) (req : order_request) (cart : Cart.t)
  : Order.t :=
  {| Order.userId := parseInt (req_userId req);
     Order.items := Cart.items cart;
     Order.totalAmount := Cart.total cart;
     Order.deliveryAddress := req_deliveryAddress req;
     Order.notes := or_else (req_notes req) (JStr "");
     Order.paymentMethod := or_else (req_paymentMethod req) (JStr "cash");
     Order.status := JStr "pending";
     Order.createdAt := now e;
     Order.updatedAt := now e |}.

(** [POST /api/orders] *)
Definition placeOrder (e : env) (req : order_request)
  : world -> response * world :=
  let userId := req_userId req in
  let deliveryAddress := req_deliveryAddress req in
  if negb (truthy userId) || negb (truthy deliveryAddress) then
    fun w =>
      (res_status 400 (ErrorBody "User ID and delivery address are required"),
       w)
  else
    try_catch
      (let cartKey := getCartKey userId in
       cartData <- redis_get e cartKey ;;
       match cartData with
       | None => ret (res_status 400 (ErrorBody "Cart is empty"))
       | Some cart =>
           if Z.of_nat (length (Cart.items cart)) =? 0 then
             ret (res_status 400 (ErrorBody "Cart is empty"))
           else
             let order := order_document e req cart in
             insertedId <- insertOne e order ;;
             redis_del e cartKey ;;;
             ret (res_status 201
                    (PlacedBody "Order placed successfully" insertedId order))
       end)
      (res_status 500 (ErrorBody "Failed to place order")).

(** [GET /api/orders/:orderId] *)
Definition getOrder (e : env) (orderId : string) : world -> response * world :=
  try_catch
    (_id <- new_ObjectId orderId ;;
     order <- findOne e _id ;;
     match order with
     | None => ret (res_status 404 (ErrorBody "Order not found"))
     | Some order => ret (res_json (OrderBody _id order))
     end)
    (res_status 500 (ErrorBody "Failed to get order")).

Definition validStatuses : list string :=
  ["pending"; "confirmed"; "preparing"; "out_for_delivery"; "delivered";
   "cancelled"].

(** [Array.prototype.includes] on an array of strings. *)
Definition includes (l : list string) (v : value) : bool :=
  existsb (fun s => strict_eq (JStr s) v) l.

Definition set_status (status : value) (t : Z) (o : Order.t) : Order.t :=
  {| Order.userId := Order.userId o;
     Order.items := Order.items o;
     Order.totalAmount := Order.totalAmount o;
     Order.deliveryAddress := Order.deliveryAddress o;
     Order.notes := Order.notes o;
     Order.paymentMethod := Order.paymentMethod o;
     Order.status := status;
     Order.createdAt := Order.createdAt o;
     Order.updatedAt := t |}.

(** [PUT /api/orders/:orderId/status]; the body is [{ status }]. *)
Definition updateOrderStatus (e : env) (orderId : string) (status : value)
  : world -> response * world :=
  if negb (includes validStatuses status) then
    fun w => (res_status 400 (ErrorBody "Invalid status"), w)
  else
    try_catch
      (_id <- new_ObjectId orderId ;;
       matchedCount <- updateOne e _id (set_status status (now e)) ;;
       if matchedCount =? 0 then
         ret (res_status 404 (ErrorBody "Order not found"))
       else
         ret (res_json (StatusBody "Order status updated" status)))
      (res_status 500 (ErrorBody "Failed to update order status")).

(** ** The listing of a user's orders *)

(** The equality of a query on a number field: numbers by value, and
    [NaN] matches [NaN]. *)
Definition query_eq (a b : value) : bool :=
  match a, b with
  | JNaN, JNaN => true
  | _, _ => strict_eq a b
  end.

(** [sort ({ createdAt: -1 })]: newest first.  Documents of the same
    instant keep the order in which the collection enumerates them. *)
Fixpoint insert_newest_first (x : oid * Order.t) (l : list (oid * Order.t))
  : list (oid * Order.t) :=
  match l with
  | [] => [x]
  | y :: r =>
      if Order.createdAt y.2 <=? Order.createdAt x.2 then x :: y :: r
      else y :: insert_newest_first x r
  end.

Definition sort_newest_first (l : list (oid * Order.t)) : list (oid * Order.t) :=
  foldr insert_newest_first [] l.

(** [find ({ userId }).sort ({ createdAt: -1 }).toArray ()] *)
Definition find_by_userId (e : env) (userId : value)
  : M (list (oid * Order.t)) :=
  fun w =>
    if mongo_ok e then
      (Returned
         (sort_newest_first
            (List.filter (fun d => query_eq (Order.userId d.2) userId)
                         (map_to_list (orders w)))),
       w)
    else (Thrown, w).

Inductive listing : Type :=
| OrdersBody (found : list (oid * Order.t))
| ListingError (error : string).

(** [GET /api/orders/user/:userId] *)
Definition getOrdersForUser (e : env) (userIdParam : string)
  : world -> (Z * listing) * world :=
  let userId := parseInt (JStr userIdParam) in
  try_catch
    (found <- find_by_userId e userId ;;
     ret (200, OrdersBody found))
    (500, ListingError "Failed to get orders").

(** ** The router *)

Inductive request : Type :=
| GetCart (userId : string)
| AddItem (userId : string) (item : CartItem.t)
| UpdateItemQuantity (userId itemId : string) (quantity : Z)
| ClearCart (userId : string)
| PlaceOrder (req : order_request)
| GetOrdersForUser (userId : string)
| GetOrder (orderId : string)
| UpdateOrderStatus (orderId : string) (status : value).

(** The state of the stores after one request. *)
Definition handle (e : env) (rq : request) (w : world) : world :=
  match rq with
  | GetCart u => (getCart e u w).2
  | AddItem u item => (addItem e u item w).2
  | UpdateItemQuantity u i q => (updateItemQuantity e u i q w).2
  | ClearCart u => (clearCart e u w).2
  | PlaceOrder req => (placeOrder e req w).2
  | GetOrdersForUser u => (getOrdersForUser e u w).2
  | GetOrder i => (getOrder e i w).2
  | UpdateOrderStatus i st => (updateOrderStatus e i st w).2
  end.

(** The state after a sequence of requests, each with the conditions it
    met. *)
Definition serve (trace : list (env * request)) (w : world) : world :=
  fold_left (fun w step => handle step.1 step.2 w) trace w.

(** * Menu service: the validation of a rating

    [services/menu-service/server.js].  The argument of [validateRating]
    is any JavaScript value (objects and arrays apart).  A number is a
    double: here a rational, an infinity or [NaN].  Every finite double
    is a rational, and the operations of [validateRating] on numbers
    (comparison with 1 and 5, [Number.isInteger]) are exact, so what is
    proved for all rationals holds for all doubles.  The conversion of a
    string to a number is the language's, and a parameter here. *)

Module Menu.
Import QArith Qround.

Inductive number : Type :=
| Finite (q : Q)
| PlusInfinity
| MinusInfinity
| NotANumber.

Inductive rating : Type :=
| Undefined
| Null
| Boolean (b : bool)
| Number (n : number)
| Text (s : string).

(** [isNaN (n)] *)
Definition isNaN (n : number) : bool :=
  match n with NotANumber => true | _ => false end.

(** [a < b] on numbers; [a > b] is [less b a]. *)
Definition less (a b : number) : bool :=
  match a, b with
  | NotANumber, _ | _, NotANumber => false
  | Finite x, Finite y => negb (Qle_bool y x)
  | Finite _, PlusInfinity => true
  | Finite _, MinusInfinity => false
  | PlusInfinity, _ => false
  | MinusInfinity, MinusInfinity => false
  | MinusInfinity, _ => true
  end.

(** [Number.isInteger (n)] *)
Definition isInteger (n : number) : bool :=
  match n with
  | Finite q => Qeq_bool (inject_Z (Qfloor q)) q
  | _ => false
  end.

(** [{ valid, error }]; a valid result has no [error]. *)
Record result : Type := Result { valid : bool; error : option string }.

Section Validation.

(** [Number (s)] for a string [s]. *)
Variable StringToNumber : string -> number.

(** [Number (rating)] *)
Definition to_number (rating : rating) : number :=
  match rating with
  | Undefined => NotANumber
  | Null => Finite 0
  | Boolean true => Finite 1
  | Boolean false => Finite 0
  | Number n => n
  | Text s => StringToNumber s
  end.

Definition validateRating (rating : rating) : result :=
  match rating with
  | Undefined | Null => Result false (Some "Rating is required")
  | _ =>
      let ratingNum := to_number rating in
      if isNaN ratingNum then
        Result false (Some "Rating must be a number")
      else if less ratingNum (Finite 1) || less (Finite 5) ratingNum then
        Result false (Some "Rating must be between 1 and 5")
      else if negb (isInteger ratingNum) then
        Result false (Some "Rating must be a whole number")
      else Result true None
  end.

End Validation.

(** The number [Number (rating)] is the integer [k]. *)
Definition is_integer (n : number) (k : Z) : Prop :=
  match n with
  | Finite q => q == inject_Z k
  | _ => False
  end.

(** The number is finite and strictly between 1 and 5, and no integer. *)
Definition is_fraction_in_range (n : number) : Prop :=
  match n with
  | Finite q => 1 < q /\ q < 5 /\ forall k : Z, ~ q == inject_Z k
  | _ => False
  end.

(** The number is below 1 or above 5 (an infinity included). *)
Definition is_out_of_range (n : number) : Prop :=
  match n with
  | Finite q => q < 1 \/ 5 < q
  | PlusInfinity | MinusInfinity => True
  | NotANumber => False
  end.

End Menu.

(** * User service: registration and login

    [services/user-service/src/server.js].  The body fields are strings
    when present ([None] stands for an absent or [null] field); a string
    is a sequence of code units below 256.  What the code leaves to the
    database and to the bcrypt library is a parameter of the model: the
    comparison of the [email] column (its collation), the hash of a
    password and the comparison of a password with a hash.  The profile
    route, whose lookup rests on the database's conversion of a string to
    a number, is not part of the development; neither are the two
    timestamps of a row, which no modelled route reads. *)

Module Users.

(** ** Regular expressions, as far as [emailRegex] needs them *)

Inductive regex : Type :=
| Empty
| Eps
| Class (p : ascii -> bool)
| Cat (a b : regex)
| Alt (a b : regex)
| Star (a : regex).

(** [a+] *)
Definition Plus (a : regex) : regex := Cat a (Star a).

Fixpoint nullable (r : regex) : bool :=
  match r with
  | Empty => false
  | Eps => true
  | Class _ => false
  | Cat a b => nullable a && nullable b
  | Alt a b => nullable a || nullable b
  | Star _ => true
  end.

(** What is left of [r] after the character [c]. *)
Fixpoint derive (c : ascii) (r : regex) : regex :=
  match r with
  | Empty => Empty
  | Eps => Empty
  | Class p => if p c then Eps else Empty
  | Cat a b =>
      if nullable a then Alt (Cat (derive c a) b) (derive c b)
      else Cat (derive c a) b
  | Alt a b => Alt (derive c a) (derive c b)
  | Star a => Cat (derive c a) (Star a)
  end.

(** [/^r$/.test (s)] *)
Fixpoint test (r : regex) (s : string) : bool :=
  match s with
  | EmptyString => nullable r
  | String c s => test (derive c r) s
  end.

(** [\s], on code units below 256: tab, line feed, vertical tab, form
    feed, carriage return, space and the no-break space. *)
Definition white_space (c : ascii) : bool :=
  let n := Z.of_nat (nat_of_ascii c) in
  ((9 <=? n) && (n <=? 13)) || (n =? 32) || (n =? 160).

(** [[^\s@]] *)
Definition not_space_nor_at (c : ascii) : bool :=
  negb (white_space c) && negb (Ascii.eqb c "@").

(** [/^[^\s@]+@[^\s@]+\.[^\s@]+$/] *)
Definition emailRegex : regex :=
  Cat (Plus (Class not_space_nor_at))
    (Cat (Class (Ascii.eqb "@"))
       (Cat (Plus (Class not_space_nor_at))
          (Cat (Class (Ascii.eqb "."))
             (Plus (Class not_space_nor_at))))).

(** ** The table, the requests, the responses *)

Record row : Type := Row
  { id : Z;
    email : string;
    password_hash : string;
    full_name : string;
    phone : option string }.

(** The [users] table in the order of insertion, and the next value of
    its [AUTO_INCREMENT] counter. *)
Record database : Type := Database { users : list row; next_id : Z }.

Record register_request : Type := RegisterRequest
  { reg_email : option string;
    reg_password : option string;
    reg_full_name : option string;
    reg_phone : option string }.

Record login_request : Type := LoginRequest
  { login_email : option string; login_password : option string }.

Inductive body : Type :=
| Error (error : string)
| Registered (message : string) (id : Z) (email full_name : string)
| LoggedIn (message : string) (id : Z) (email full_name : string)
           (phone : option string).

Record response : Type := Response { code : Z; json : body }.

(** What the outside decides during one request: whether each query
    and each bcrypt call succeeds, and the salt bcrypt draws. *)
Record conditions : Type := Conditions
  { select_ok : bool;
    insert_ok : bool;
    hash_ok : bool;
    compare_ok : bool;
    salt : string }.

Definition SALT_ROUNDS : Z := 10.

(** [!field] for a string field *)
Definition missing (field : option string) : bool :=
  match field with
  | None => true
  | Some s => String.eqb s ""
  end.

Section Routes.

(** [email = ?] in a [WHERE] clause: the comparison of the column. *)
Variable same_email : string -> string -> bool.

(** [bcrypt.hash (password, rounds)], with the salt it drew, and
    [bcrypt.compare (password, hash)]. *)
Variable bcrypt_hash : string -> Z -> string -> string.
Variable bcrypt_compare : string -> string -> bool.

(** [SELECT ... FROM users WHERE email = ?] *)
Definition select_by_email (db : database) (address : string) : list row :=
  List.filter (fun r => same_email (email r) address) (users db).

(** [POST /api/auth/register].  [None] is a request that is never
    answered: the rejection of [bcrypt.hash], awaited in the callback of
    the query, has no handler.  The queries report their errors to
    their callbacks; the [catch] around the first one, for a call that
    throws at once, has no counterpart here. *)
Definition register (c : conditions) (req : register_request) (db : database)
  : option response * database :=
  if missing (reg_email req) || missing (reg_password req)
     || missing (reg_full_name req) then
    (Some (Response 400 (Error "Email, password, and full name are required")),
     db)
  else
    let address := default "" (reg_email req) in
    let password := default "" (reg_password req) in
    let name := default "" (reg_full_name req) in
    if negb (test emailRegex address) then
      (Some (Response 400 (Error "Invalid email format")), db)
    else if Z.of_nat (String.length password) <? 6 then
      (Some (Response 400
               (Error "Password must be at least 6 characters long")), db)
    else if negb (select_ok c) then
      (Some (Response 500 (Error "Database error")), db)
    else if Z.of_nat (length (select_by_email db address)) >? 0 then
      (Some (Response 409 (Error "Email already registered")), db)
    else if negb (hash_ok c) then (None, db)
    else
      let hash := bcrypt_hash password SALT_ROUNDS (salt c) in
      if negb (insert_ok c) then
        (Some (Response 500 (Error "Failed to create user")), db)
      else
        let insertId := next_id db in
        (Some (Response 201
                 (Registered "User registered successfully" insertId
                             address name)),
         Database
           (users db ++ [Row insertId address hash name
                            (match reg_phone req with
                             | Some p => if String.eqb p "" then None
                                         else Some p
                             | None => None
                             end)])
           (insertId + 1)).

(** [POST /api/auth/login] *)
Definition login (c : conditions) (req : login_request) (db : database)
  : response :=
  if missing (login_email req) || missing (login_password req) then
    Response 400 (Error "Email and password are required")
  else
    let address := default "" (login_email req) in
    let password := default "" (login_password req) in
    if negb (select_ok c) then Response 500 (Error "Database error")
    else
      match select_by_email db address with
      | [] => Response 401 (Error "Invalid email or password")
      | user :: _ =>
          if negb (compare_ok c) then Response 500 (Error "Login failed")
          else if negb (bcrypt_compare password (password_hash user)) then
            Response 401 (Error "Invalid email or password")
          else
            Response 200
              (LoggedIn "Login successful" (id user) (email user)
                        (full_name user) (phone user))
      end.

End Routes.

(** ** Specification-side definitions *)

(** The language of a regular expression. *)
Inductive lang : regex -> string -> Prop :=
| lang_eps : lang Eps ""
| lang_class (p : ascii -> bool) (c : ascii) :
    p c = true -> lang (Class p) (String c "")
| lang_cat (a b : regex) (s t : string) :
    lang a s -> lang b t -> lang (Cat a b) (s +:+ t)
| lang_alt_l (a b : regex) (s : string) : lang a s -> lang (Alt a b) s
| lang_alt_r (a b : regex) (s : string) : lang b s -> lang (Alt a b) s
| lang_star_nil (a : regex) : lang (Star a) ""
| lang_star_cons (a : regex) (s t : string) :
    lang a s -> lang (Star a) t -> lang (Star a) (s +:+ t).

(** A non-empty string without white space and without [@]. *)
Fixpoint no_space_nor_at (s : string) : Prop :=
  match s with
  | EmptyString => True
  | String c r => not_space_nor_at c = true /\ no_space_nor_at r
  end.

Definition word (s : string) : Prop := s <> "" /\ no_space_nor_at s.




(** ** Sample data *)

(** Addresses compared letter by letter; a hash that is the password
    behind a mark.  They stand in for the collation and for bcrypt where
    a concrete run is needed. *)
Definition exact_email : string -> string -> bool := String.eqb.

Definition toy_hash (password : string) (rounds : Z) (s : string) : string :=
  "hash:" +:+ password.

Definition toy_compare (password hash : string) : bool :=
  String.eqb hash ("hash:" +:+ password).

Definition fine : conditions := Conditions true true true true "salt".

Definition ada : register_request :=
  RegisterRequest (Some "ada@example.org") (Some "lovelace") (Some "Ada")
                  None.

Definition empty_table : database := Database [] 1.

End Users.

(** ** Specification-side definitions *)

(** The total the data model prescribes: the sum of [price * quantity]
    over the items. *)
Fixpoint spec_total (its : list CartItem.t) : Z :=
  match its with
  | [] => 0
  | item :: rest =>
      CartItem.price item * CartItem.quantity item + spec_total rest
  end.


(** The cart a user has in the cache, if any. *)
Definition cart_of (w : world) (userId : value) : option Cart.t :=
  cached <$> cache w !! getCartKey userId.

(** What [findIndex] finds: the first position whose element satisfies
    the predicate, or [-1] when no element does. *)
Inductive first_match {A} (p : A -> bool) (l : list A) : Z -> Prop :=
| first_at (i : nat) (x : A) :
    l !! i = Some x ->
    p x = true ->
    (forall j y, (j < i)%nat -> l !! j = Some y -> p y = false) ->
    first_match p l (Z.of_nat i)
| no_match :
    (forall x, x ∈ l -> p x = false) ->
    first_match p l (-1).

(** The predicates of the two [findIndex] calls. *)
Definition same_id (id : value) (item : CartItem.t) : bool :=
  strict_eq (CartItem.itemId item) id.

(** The six order states of the data model. *)
Definition spec_status (v : value) : Prop :=
  v = JStr "pending" \/ v = JStr "confirmed" \/ v = JStr "preparing" \/
  v = JStr "out_for_delivery" \/ v = JStr "delivered" \/
  v = JStr "cancelled".

(** No two items of a cart have strictly equal identifiers. *)
Definition distinct_ids (its : list CartItem.t) : Prop :=
  forall i j x y,
    its !! i = Some x -> its !! j = Some y ->
    strict_eq (CartItem.itemId x) (CartItem.itemId y) = true -> i = j.




(** Two versions of an order that differ at most in [status] and
    [updatedAt]. *)
Definition same_snapshot (o o' : Order.t) : Prop :=
  Order.userId o' = Order.userId o
  /\ Order.items o' = Order.items o
  /\ Order.totalAmount o' = Order.totalAmount o
  /\ Order.deliveryAddress o' = Order.deliveryAddress o
  /\ Order.notes o' = Order.notes o
  /\ Order.paymentMethod o' = Order.paymentMethod o
  /\ Order.createdAt o' = Order.createdAt o.

(** A listing is newest first. *)
Fixpoint newest_first (l : list (oid * Order.t)) : Prop :=
  match l with
  | [] => True
  | x :: r =>
      (forall y, y ∈ r -> Order.createdAt y.2 <= Order.createdAt x.2)
      /\ newest_first r
  end.

(** The user whose cart a request may write. *)
Definition cart_owner (rq : request) : option string :=
  match rq with
  | AddItem u _ | UpdateItemQuantity u _ _ | ClearCart u => Some u
  | PlaceOrder req => Some (to_string (req_userId req))
  | GetCart _ | GetOrdersForUser _ | GetOrder _ | UpdateOrderStatus _ _ => None
  end.

Definition is_status_update (rq : request) : bool :=
  match rq with UpdateOrderStatus _ _ => true | _ => false end.

(** Strings of decimal digits. *)
Definition is_decimal (c : ascii) : bool :=
  let n := Z.of_nat (nat_of_ascii c) in (48 <=? n) && (n <=? 57).

Fixpoint decimal (s : string) : bool :=
  match s with
  | String c r => is_decimal c && decimal r
  | EmptyString => true
  end.

(** ** Sample data, to run the routes on concrete requests *)

Definition sample_id : oid := "65a1b2c3d4e5f60718293a4b".

(** Every store call succeeds. *)
Definition calm_env : env := Env true true true true 1700000000000 sample_id.

(** MongoDB is unreachable. *)
Definition mongo_down : env := Env true true true false 1700000000000 sample_id.

Definition empty_world : world := World ∅ ∅.

Definition pizza (q : Z) : CartItem.t := CartItem.mk (JNum 1) "Pizza" 10 q.


Definition checkout : order_request :=
  OrderRequest (JNum 7) (JStr "123 Main St") JUndefined JUndefined.

(** The stores after user 7 put two pizzas in the cart, and after the
    checkout that followed. *)
Definition with_cart : world := (addItem calm_env "7" (pizza 2) empty_world).2.

Definition after_checkout : world := (placeOrder calm_env checkout with_cart).2.

(** Redis refuses the delete; everything else answers. *)
Definition redis_del_down : env :=
  Env true true false true 1700000000000 sample_id.

(** A later request, for which the driver generates another identifier. *)
Definition later_env : env :=
  Env true true true true 1700000060000 "65a1b2c3d4e5f60718293a4c".

Definition salad : CartItem.t := CartItem.mk (JNum 2) "Salad" 7 1.

(** * Properties *)

(** ** Arrays *)

Section Arrays.
Context {A : Type} (p : A -> bool).

Lemma findIndex_from_shift (l : list A) (k : Z) :
  findIndex_from p l k = -1 /\ findIndex p l = -1 \/
  0 <= findIndex p l /\ findIndex_from p l k = k + findIndex p l.
Proof.
  unfold findIndex. revert k.
  induction l as [|x l IH]; intros k; simpl; [by left|].
  destruct (p x); [right; lia|].
  destruct (IH (k + 1)) as [[-> H0]|[H0 ->]];
    destruct (IH (0 + 1)) as [[-> H1]|[H1 H2]]; lia.
Qed.

Lemma findIndex_spec (l : list A) : first_match p l (findIndex p l).
Proof.
  induction l as [|x l IH].
  - apply no_match. intros x Hx. inversion Hx.
  - unfold findIndex. simpl. destruct (p x) eqn:Hpx.
    + apply (first_at p (x :: l) 0 x); [done|done|]. intros j y Hj. lia.
    + destruct (findIndex_from_shift l (0 + 1)) as [[-> E]|[H0 ->]].
      * apply no_match. intros y Hy.
        apply elem_of_cons in Hy as [->|Hy]; [done|].
        inversion IH as [i z Hi Hz Hfirst Heq|Hnone]; [lia|by apply Hnone].
      * inversion IH as [i z Hi Hz Hfirst Heq|Hnone Heq]; [|lia].
        replace (0 + 1 + Z.of_nat i) with (Z.of_nat (S i)) by lia.
        apply (first_at p (x :: l) (S i) z); [done|done|].
        intros [|j] y Hj Hy; simpl in Hy; [by simplify_eq|].
        apply (Hfirst j y); [lia|done].
Qed.

(** The position is determined by the three facts of [first_at]. *)
Lemma findIndex_first (l : list A) (i : nat) (x : A) :
  l !! i = Some x ->
  p x = true ->
  (forall j y, (j < i)%nat -> l !! j = Some y -> p y = false) ->
  findIndex p l = Z.of_nat i.
Proof.
  intros Hi Hx Hfirst.
  destruct (findIndex_spec l) as [k y Hk Hy Hkfirst|Hnone].
  - destruct (Nat.lt_trichotomy k i) as [Hlt|[->|Hgt]]; [|done|].
    + rewrite (Hfirst k y Hlt Hk) in Hy. discriminate.
    + rewrite (Hkfirst i x Hgt Hi) in Hx. discriminate.
  - rewrite Hnone in Hx; [discriminate|].
    apply list_elem_of_lookup. eauto.
Qed.

Lemma findIndex_none (l : list A) :
  (forall x, x ∈ l -> p x = false) -> findIndex p l = -1.
Proof.
  intros Hnone.
  destruct (findIndex_spec l) as [k y Hk Hy _|_]; [|done].
  rewrite Hnone in Hy; [discriminate|].
  apply list_elem_of_lookup. eauto.
Qed.
End Arrays.

(** ** The total *)

Lemma fold_total_acc (its : list CartItem.t) (acc : Z) :
  fold_left
    (fun sum item => sum + CartItem.price item * CartItem.quantity item)
    its acc
  = acc + spec_total its.
Proof.
  revert acc. induction its as [|item rest IH]; intros acc; simpl.
  - lia.
  - rewrite IH. lia.
Qed.

Lemma reduce_total_spec (its : list CartItem.t) :
  reduce_total its = spec_total its.
Proof. unfold reduce_total. rewrite fold_total_acc. lia. Qed.

(** ** Running a handler *)

Ltac unfold_monad :=
  unfold try_catch, bind, ret, throw, redis_get, redis_setEx, redis_del,
    insertOne, findOne, updateOne, new_ObjectId, res_json, res_status in *.



(** ** The cart's total *)


(** ** Adding an item *)

Lemma strict_eq_refl (v : value) : v <> JNaN -> strict_eq v v = true.
Proof.
  destruct v as [| |b|n| |s]; simpl; intros Hv; try done.
  - by destruct b.
  - apply Z.eqb_refl.
  - apply String.eqb_refl.
Qed.

Lemma alter_at {A} (f : A -> A) (l : list A) (i : nat) (x : A) :
  l !! i = Some x -> alter f i l = <[i := f x]> l.
Proof.
  revert i. induction l as [|y l IH]; intros [|i] Hi; simplify_eq/=; [done|].
  f_equal. by apply IH.
Qed.


Lemma item_eta (item : CartItem.t) :
  CartItem.mk (CartItem.itemId item) (CartItem.itemName item)
              (CartItem.price item) (CartItem.quantity item) = item.
Proof. by destruct item. Qed.

Lemma cart_of_insert (w : world) (userId : value) (c : Cart.t) (o : gmap string Order.t) :
  cart_of (World (<[getCartKey userId := Entry 86400 c]> (cache w)) o) userId
  = Some c.
Proof. unfold cart_of. simpl. by rewrite lookup_insert_eq. Qed.

(** The result of [addItem] when neither Redis call throws. *)
Lemma addItem_run (e : env) (userId : string) (req : CartItem.t) (w : world) :
  redis_get_ok e = true ->
  redis_setEx_ok e = true ->
  addItem e userId req w =
    let cart := default empty_cart (cart_of w (JStr userId)) in
    let i := findIndex (same_id (CartItem.itemId req)) (Cart.items cart) in
    let items :=
      if i >=? 0 then
        alter (fun item =>
                 with_quantity (CartItem.quantity item + CartItem.quantity req)
                               item)
              (Z.to_nat i) (Cart.items cart)
      else Cart.items cart ++ [req] in
    let cart' := Cart.mk items (reduce_total items) in
    (res_json (CartBody cart'),
     World (<[getCartKey (JStr userId) := Entry 86400 cart']> (cache w))
           (orders w)).
Proof.
  intros Hget Hset. unfold addItem, cart_of. unfold_monad.
  rewrite Hget, Hset. simpl. by rewrite item_eta.
Qed.

Lemma addItem_present
  (e : env) (userId : string) (req : CartItem.t) (w : world)
  (i : nat) (item : CartItem.t) :
  redis_get_ok e = true ->
  redis_setEx_ok e = true ->
  let cart := default empty_cart (cart_of w (JStr userId)) in
  Cart.items cart !! i = Some item ->
  same_id (CartItem.itemId req) item = true ->
  (forall j y, (j < i)%nat -> Cart.items cart !! j = Some y ->
               same_id (CartItem.itemId req) y = false) ->
  let items :=
    <[i := with_quantity (CartItem.quantity item + CartItem.quantity req) item]>
      (Cart.items cart) in
  let cart' := Cart.mk items (spec_total items) in
  addItem e userId req w =
    (res_json (CartBody cart'),
     World (<[getCartKey (JStr userId) := Entry 86400 cart']> (cache w))
           (orders w)).
Proof.
  intros Hget Hset cart Hi Hid Hfirst. rewrite addItem_run by done.
  fold cart. cbv zeta.
  rewrite (findIndex_first _ _ i item Hi Hid Hfirst).
  replace (Z.of_nat i >=? 0) with true
    by (symmetry; apply Z.geb_le; lia).
  rewrite Nat2Z.id, (alter_at _ _ _ _ Hi), reduce_total_spec. done.
Qed.

Lemma addItem_absent
  (e : env) (userId : string) (req : CartItem.t) (w : world) :
  redis_get_ok e = true ->
  redis_setEx_ok e = true ->
  let cart := default empty_cart (cart_of w (JStr userId)) in
  (forall item, item ∈ Cart.items cart ->
                same_id (CartItem.itemId req) item = false) ->
  let items := Cart.items cart ++ [req] in
  let cart' := Cart.mk items (spec_total items) in
  addItem e userId req w =
    (res_json (CartBody cart'),
     World (<[getCartKey (JStr userId) := Entry 86400 cart']> (cache w))
           (orders w)).
Proof.
  intros Hget Hset cart Hnone. rewrite addItem_run by done.
  fold cart. cbv zeta.
  rewrite (findIndex_none _ _ Hnone). simpl.
  by rewrite reduce_total_spec.
Qed.



(** ** Updating a quantity *)

Lemma cart_of_Some (w : world) (userId : value) (c : Cart.t) :
  cart_of w userId = Some c ->
  exists en, cache w !! getCartKey userId = Some en /\ cached en = c.
Proof.
  unfold cart_of. destruct (cache w !! getCartKey userId) as [en|]; [|done].
  intros [= <-]. eauto.
Qed.

Lemma cart_of_None (w : world) (userId : value) :
  cart_of w userId = None -> cache w !! getCartKey userId = None.
Proof.
  unfold cart_of. by destruct (cache w !! getCartKey userId).
Qed.

Lemma updateItemQuantity_no_cart
  (e : env) (userId itemIdParam : string) (quantity : Z) (w : world) :
  redis_get_ok e = true ->
  cart_of w (JStr userId) = None ->
  updateItemQuantity e userId itemIdParam quantity w
  = (Response 404 (ErrorBody "Cart not found"), w).
Proof.
  intros Hget Hnone%cart_of_None. unfold updateItemQuantity. unfold_monad.
  by rewrite Hget, Hnone.
Qed.

Lemma updateItemQuantity_no_item
  (e : env) (userId itemIdParam : string) (quantity : Z) (w : world)
  (cart : Cart.t) :
  redis_get_ok e = true ->
  cart_of w (JStr userId) = Some cart ->
  (forall item, item ∈ Cart.items cart ->
                same_id (parseInt (JStr itemIdParam)) item = false) ->
  updateItemQuantity e userId itemIdParam quantity w
  = (Response 404 (ErrorBody "Item not found in cart"), w).
Proof.
  intros Hget (en & Hen & <-)%cart_of_Some Hnone.
  unfold updateItemQuantity. unfold_monad.
  rewrite Hget, Hen. simpl.
  fold (same_id (parseInt (JStr itemIdParam))).
  by rewrite (findIndex_none _ _ Hnone).
Qed.

Lemma updateItemQuantity_found
  (e : env) (userId itemIdParam : string) (quantity : Z) (w : world)
  (cart : Cart.t) (i : nat) (item : CartItem.t) :
  redis_get_ok e = true ->
  redis_setEx_ok e = true ->
  cart_of w (JStr userId) = Some cart ->
  Cart.items cart !! i = Some item ->
  same_id (parseInt (JStr itemIdParam)) item = true ->
  (forall j y, (j < i)%nat -> Cart.items cart !! j = Some y ->
               same_id (parseInt (JStr itemIdParam)) y = false) ->
  let items :=
    if quantity <=? 0 then delete i (Cart.items cart)
    else <[i := with_quantity quantity item]> (Cart.items cart) in
  let cart' := Cart.mk items (spec_total items) in
  updateItemQuantity e userId itemIdParam quantity w
  = (Response 200 (CartBody cart'),
     World (<[getCartKey (JStr userId) := Entry 86400 cart']> (cache w))
           (orders w)).
Proof.
  intros Hget Hset (en & Hen & <-)%cart_of_Some Hi Hid Hfirst.
  unfold updateItemQuantity. unfold_monad.
  rewrite Hget, Hen. simpl.
  fold (same_id (parseInt (JStr itemIdParam))).
  rewrite (findIndex_first _ _ i item Hi Hid Hfirst).
  replace (Z.of_nat i =? -1) with false by (symmetry; apply Z.eqb_neq; lia).
  rewrite Hset, Nat2Z.id, (alter_at _ _ _ _ Hi), !reduce_total_spec.
  by destruct (quantity <=? 0).
Qed.

(** C6.  For a cart that holds the addressed item (the first item whose
    [itemId] is strictly equal to the parsed path parameter, at position
    [i]), and when Redis answers: a quantity [<= 0] removes that item, a
    quantity [> 0] replaces its quantity by the given value; either way
    the total is the sum over the resulting items and the cart is stored
    again for 86400 seconds and returned. *)
Theorem updateItemQuantity_removes_or_sets
  (e : env) (userId itemIdParam : string) (quantity : Z) (w : world)
  (cart : Cart.t) (i : nat) (item : CartItem.t) :
  redis_get_ok e = true ->
  redis_setEx_ok e = true ->
  cart_of w (JStr userId) = Some cart ->
  Cart.items cart !! i = Some item ->
  same_id (parseInt (JStr itemIdParam)) item = true ->
  (forall j y, (j < i)%nat -> Cart.items cart !! j = Some y ->
               same_id (parseInt (JStr itemIdParam)) y = false) ->
  let stored (c : Cart.t) :=
    World (<[getCartKey (JStr userId) := Entry 86400 c]> (cache w))
          (orders w) in
  let r := updateItemQuantity e userId itemIdParam quantity w in
  (quantity <= 0 ->
   let items := delete i (Cart.items cart) in
   let cart' := Cart.mk items (spec_total items) in
   r = (Response 200 (CartBody cart'), stored cart')
   /\ length items = pred (length (Cart.items cart)))
  /\
  (0 < quantity ->
   let items := <[i := with_quantity quantity item]> (Cart.items cart) in
   let cart' := Cart.mk items (spec_total items) in
   r = (Response 200 (CartBody cart'), stored cart')
   /\ items !! i = Some (with_quantity quantity item)).
Proof.
  intros Hget Hset Hcart Hi Hid Hfirst stored r.
  pose proof (updateItemQuantity_found e userId itemIdParam quantity w
                cart i item Hget Hset Hcart Hi Hid Hfirst) as Hrun.
  cbv zeta in Hrun. fold r in Hrun.
  apply lookup_lt_Some in Hi as Hlt.
  split; intros Hq.
  - replace (quantity <=? 0) with true in Hrun
      by (symmetry; apply Z.leb_le; lia).
    split; [exact Hrun|]. rewrite length_delete by eauto. lia.
  - replace (quantity <=? 0) with false in Hrun
      by (symmetry; apply Z.leb_gt; lia).
    split; [exact Hrun|]. by apply list_lookup_insert_eq.
Qed.

(** C6 at work: a cart with two pizzas; quantity 0 empties it, quantity 4
    sets it. *)
Lemma updateItemQuantity_removes_or_sets_witness :
  let w1 := (addItem calm_env "7" (pizza 2) empty_world).2 in
  (updateItemQuantity calm_env "7" "1" 0 w1).1
  = Response 200 (CartBody (Cart.mk [] 0))
  /\ (updateItemQuantity calm_env "7" "1" 4 w1).1
     = Response 200 (CartBody (Cart.mk [pizza 4] 40)).
Proof.
  intros w1.
  assert (Hcart : cart_of w1 (JStr "7") = Some (Cart.mk [pizza 2] 20))
    by (vm_compute; reflexivity).
  assert (Hfirst : forall (j : nat) (y : CartItem.t),
             (j < 0)%nat -> Cart.items (Cart.mk [pizza 2] 20) !! j = Some y ->
             same_id (parseInt (JStr "1")) y = false)
    by (intros j y Hj; lia).
  split.
  - destruct (updateItemQuantity_removes_or_sets calm_env "7" "1" 0 w1
                (Cart.mk [pizza 2] 20) 0 (pizza 2)
                eq_refl eq_refl Hcart eq_refl eq_refl Hfirst) as [Hrm _].
    destruct Hrm as [-> _]; [lia|reflexivity].
  - destruct (updateItemQuantity_removes_or_sets calm_env "7" "1" 4 w1
                (Cart.mk [pizza 2] 20) 0 (pizza 2)
                eq_refl eq_refl Hcart eq_refl eq_refl Hfirst) as [_ Hset].
    destruct Hset as [-> _]; [lia|reflexivity].
Defined.



(** ** Identifiers that are not numbers *)

Lemma parseInt_string_is_number (s : string) :
  is_number (parseInt_string s) = true.
Proof.
  unfold parseInt_string.
  destruct (strip_sign (trim_start s)) as [sign s1].
  destruct (strip_radix s1) as [R s2].
  by destruct (read_digits R s2 None).
Qed.


Lemma strict_eq_true (a b : value) : strict_eq a b = true -> a = b.
Proof.
  destruct a as [| |x|x| |x], b as [| |y|y| |y]; simpl; try done.
  - by intros ->%Bool.eqb_prop.
  - by intros ->%Z.eqb_eq.
  - by intros ->%String.eqb_eq.
Qed.



(** After [addItem], the cart holds an item with the request's id. *)
Lemma addItem_holds_item
  (e : env) (userId : string) (req : CartItem.t) (w : world) :
  redis_get_ok e = true ->
  redis_setEx_ok e = true ->
  exists cart item,
    cart_of (addItem e userId req w).2 (JStr userId) = Some cart /\
    item ∈ Cart.items cart /\
    CartItem.itemId item = CartItem.itemId req.
Proof.
  intros Hget Hset.
  destruct (findIndex_spec (same_id (CartItem.itemId req))
              (Cart.items (default empty_cart (cart_of w (JStr userId)))))
    as [i x Hi Hid Hfirst|Hnone].
  - rewrite (addItem_present e userId req w i x) by done.
    eexists _, _. split; [apply cart_of_insert|]. simpl. split.
    + apply list_elem_of_lookup. exists i.
      apply list_lookup_insert_eq. by apply lookup_lt_Some in Hi.
    + simpl. by apply strict_eq_true.
  - rewrite (addItem_absent e userId req w) by done.
    exists (Cart.mk (Cart.items (default empty_cart (cart_of w (JStr userId)))
                     ++ [req])
              (spec_total
                 (Cart.items (default empty_cart (cart_of w (JStr userId)))
                  ++ [req]))), req.
    split; [apply cart_of_insert|]. simpl. split; [|done].
    apply elem_of_app. right. by apply list_elem_of_singleton.
Qed.




(** ** Placing an order *)

Lemma getCartKey_to_string (v : value) :
  getCartKey (JStr (to_string v)) = getCartKey v.
Proof. done. Qed.

Lemma placeOrder_missing (e : env) (req : order_request) (w : world) :
  negb (truthy (req_userId req)) || negb (truthy (req_deliveryAddress req))
  = true ->
  placeOrder e req w
  = (Response 400 (ErrorBody "User ID and delivery address are required"), w).
Proof. intros H. unfold placeOrder. by rewrite H. Qed.

Lemma placeOrder_empty (e : env) (req : order_request) (w : world) :
  negb (truthy (req_userId req)) || negb (truthy (req_deliveryAddress req))
  = false ->
  redis_get_ok e = true ->
  match cart_of w (req_userId req) with
  | None => True
  | Some cart => Cart.items cart = []
  end ->
  placeOrder e req w = (Response 400 (ErrorBody "Cart is empty"), w).
Proof.
  intros H Hget Hcart. unfold placeOrder, cart_of in *. rewrite H.
  unfold_monad. rewrite Hget.
  destruct (cache w !! getCartKey (req_userId req)) as [en|]; simpl in *;
    [|done].
  by rewrite Hcart.
Qed.

Lemma placeOrder_success
  (e : env) (req : order_request) (w : world) (cart : Cart.t) :
  truthy (req_userId req) = true ->
  truthy (req_deliveryAddress req) = true ->
  redis_get_ok e = true ->
  mongo_ok e = true ->
  redis_del_ok e = true ->
  cart_of w (req_userId req) = Some cart ->
  Cart.items cart <> [] ->
  orders w !! generated_id e = None ->
  placeOrder e req w
  = (Response 201
       (PlacedBody "Order placed successfully" (generated_id e)
                   (order_document e req cart)),
     World (delete (getCartKey (req_userId req)) (cache w))
           (<[generated_id e := order_document e req cart]> (orders w))).
Proof.
  intros Hu Ha Hget Hmongo Hdel (en & Hen & <-)%cart_of_Some Hitems Hfresh.
  unfold placeOrder. rewrite Hu, Ha. simpl. unfold_monad.
  rewrite Hget, Hen. simpl.
  destruct (Cart.items (cached en)) as [|item rest] eqn:Hits; [done|].
  simpl. rewrite Hmongo, Hfresh, Hdel. done.
Qed.

(** C2.  In [placeOrder]: if the cache changed, the order had been
    inserted first and the change is the removal of the user's cart; if
    the insert fails (MongoDB throws, or refuses the identifier), the
    cache is what it was and so are the orders; and after a 201, reading
    the user's cart gives [{items: [], total: 0}]. *)
Theorem cart_deleted_only_after_insert
  (e : env) (req : order_request) (w : world) :
  let r := placeOrder e req w in
  let key := getCartKey (req_userId req) in
  (cache r.2 <> cache w ->
   orders w !! generated_id e = None /\
   (exists cart, cart_of w (req_userId req) = Some cart /\
      orders r.2 = <[generated_id e := order_document e req cart]> (orders w))
   /\ cache r.2 = delete key (cache w))
  /\
  (mongo_ok e = false \/ is_Some (orders w !! generated_id e) -> r.2 = w)
  /\
  (code r.1 = 201 ->
   forall e', redis_get_ok e' = true ->
     getCart e' (to_string (req_userId req)) r.2
     = (Response 200 (CartBody (Cart.mk [] 0)), r.2)).
Proof.
  intros r key. subst r. unfold placeOrder.
  destruct (negb (truthy (req_userId req))
            || negb (truthy (req_deliveryAddress req))); simpl;
    [split; [done|split; [done|discriminate]]|].
  unfold_monad.
  destruct (redis_get_ok e); simpl;
    [|split; [done|split; [done|discriminate]]].
  unfold cart_of. fold key.
  destruct (cache w !! key) as [en|] eqn:Hen; simpl;
    [|split; [done|split; [done|discriminate]]].
  destruct (Z.of_nat (length (Cart.items (cached en))) =? 0); simpl;
    [split; [done|split; [done|discriminate]]|].
  destruct (mongo_ok e); simpl;
    [|split; [done|split; [done|discriminate]]].
  destruct (orders w !! generated_id e) as [o|] eqn:Hfresh; simpl;
    [split; [done|split; [done|discriminate]]|].
  destruct (redis_del_ok e); simpl.
  - split; [|split].
    + intros _. split; [done|]. split; [|done]. exists (cached en). done.
    + intros [?|[? ?]]; done.
    + intros _ e' Hget'. unfold getCart. unfold_monad.
      rewrite Hget', getCartKey_to_string. simpl. fold key.
      by rewrite lookup_delete_eq.
  - split; [done|]. split; [|discriminate]. intros [?|[? ?]]; done.
Qed.

(** C2 at work: two pizzas, a checkout, and the cart is empty again. *)
Lemma cart_deleted_only_after_insert_witness :
  let w1 := (addItem calm_env "7" (pizza 2) empty_world).2 in
  getCart calm_env "7" (placeOrder calm_env checkout w1).2
  = (Response 200 (CartBody (Cart.mk [] 0)),
     (placeOrder calm_env checkout w1).2).
Proof.
  intros w1.
  destruct (cart_deleted_only_after_insert calm_env checkout w1)
    as (_ & _ & Hempty).
  apply (Hempty eq_refl calm_env eq_refl).
Defined.

(** C8.  [placeOrder] answers 400 "User ID and delivery address are
    required" when [userId] or [deliveryAddress] is falsy (absent, null,
    the empty string), and, with both present and the cache answering,
    400 "Cart is empty" when the user has no cart or a cart without
    items.  In each of these cases both stores are left as they were: no
    order is created and the cart is untouched. *)
Theorem placeOrder_rejects (e : env) (req : order_request) (w : world) :
  let missing :=
    negb (truthy (req_userId req))
    || negb (truthy (req_deliveryAddress req)) in
  let no_items :=
    match cart_of w (req_userId req) with
    | None => True
    | Some cart => Cart.items cart = []
    end in
  missing = true \/ (redis_get_ok e = true /\ no_items) ->
  placeOrder e req w
  = (Response 400
       (ErrorBody (if missing
                   then "User ID and delivery address are required"
                   else "Cart is empty")),
     w).
Proof.
  intros missing no_items H.
  destruct missing eqn:Hmissing.
  - by apply placeOrder_missing.
  - destruct H as [?|[Hget Hno]]; [done|]. by apply placeOrder_empty.
Qed.

(** C8 at work: no delivery address; an empty user id; no cart. *)
Lemma placeOrder_rejects_witness :
  placeOrder mongo_down
    (OrderRequest (JNum 7) JUndefined JUndefined JUndefined) empty_world
  = (Response 400 (ErrorBody "User ID and delivery address are required"),
     empty_world)
  /\ placeOrder calm_env
       (OrderRequest (JStr "") (JStr "123 Main St") JUndefined JUndefined)
       empty_world
     = (Response 400 (ErrorBody "User ID and delivery address are required"),
        empty_world)
  /\ placeOrder calm_env checkout empty_world
     = (Response 400 (ErrorBody "Cart is empty"), empty_world).
Proof.
  split; [|split].
  - apply (placeOrder_rejects mongo_down
             (OrderRequest (JNum 7) JUndefined JUndefined JUndefined)
             empty_world).
    by left.
  - apply (placeOrder_rejects calm_env
             (OrderRequest (JStr "") (JStr "123 Main St") JUndefined
                           JUndefined)
             empty_world).
    by left.
  - apply (placeOrder_rejects calm_env checkout empty_world).
    right. by split.
Defined.

(** ** Reading an order back *)

Lemma getOrder_run (e : env) (orderId : string) (i : oid) (w : world) :
  mongo_ok e = true ->
  ObjectId orderId = Some i ->
  getOrder e orderId w
  = (match orders w !! i with
     | None => Response 404 (ErrorBody "Order not found")
     | Some order => Response 200 (OrderBody i order)
     end, w).
Proof.
  intros Hmongo Hid. unfold getOrder. unfold_monad.
  rewrite Hid, Hmongo. by destruct (orders w !! i).
Qed.

(** C4.  Round trip.  With both required fields present, a cart that has
    items, the stores answering, and the driver generating an unused,
    well-formed identifier, [placeOrder] answers 201, and [getOrder] on
    the returned identifier gives back the order of the response: its
    items and total amount are those of the cart at checkout, its status
    is "pending", absent notes became the empty string and an absent
    payment method became "cash". *)
Theorem order_round_trip
  (e e' : env) (req : order_request) (w : world) (cart : Cart.t) :
  truthy (req_userId req) = true ->
  truthy (req_deliveryAddress req) = true ->
  redis_get_ok e = true ->
  mongo_ok e = true ->
  redis_del_ok e = true ->
  cart_of w (req_userId req) = Some cart ->
  Cart.items cart <> [] ->
  orders w !! generated_id e = None ->
  ObjectId (generated_id e) = Some (generated_id e) ->
  mongo_ok e' = true ->
  let r := placeOrder e req w in
  exists orderId order,
    r.1 = Response 201 (PlacedBody "Order placed successfully" orderId order)
    /\ getOrder e' orderId r.2 = (Response 200 (OrderBody orderId order), r.2)
    /\ Order.items order = Cart.items cart
    /\ Order.totalAmount order = Cart.total cart
    /\ Order.status order = JStr "pending"
    /\ (req_notes req = JUndefined -> Order.notes order = JStr "")
    /\ (truthy (req_notes req) = true -> Order.notes order = req_notes req)
    /\ (req_paymentMethod req = JUndefined ->
        Order.paymentMethod order = JStr "cash")
    /\ (truthy (req_paymentMethod req) = true ->
        Order.paymentMethod order = req_paymentMethod req).
Proof.
  intros Hu Ha Hget Hmongo Hdel Hcart Hitems Hfresh Hwf Hmongo' r.
  subst r. rewrite (placeOrder_success e req w cart) by done.
  exists (generated_id e), (order_document e req cart). simpl.
  split; [done|]. split.
  - rewrite (getOrder_run e' _ (generated_id e)) by done.
    simpl. by rewrite lookup_insert_eq.
  - unfold or_else. repeat split; try done.
    + by intros ->.
    + by intros ->.
    + by intros ->.
    + by intros ->.
Qed.

(** C4 at work: the checkout of two pizzas, read back. *)
Lemma order_round_trip_witness :
  let w1 := (addItem calm_env "7" (pizza 2) empty_world).2 in
  exists orderId order,
    (placeOrder calm_env checkout w1).1
    = Response 201 (PlacedBody "Order placed successfully" orderId order)
    /\ getOrder calm_env orderId (placeOrder calm_env checkout w1).2
       = (Response 200 (OrderBody orderId order),
          (placeOrder calm_env checkout w1).2)
    /\ Order.items order = [pizza 2]
    /\ Order.totalAmount order = 20
    /\ Order.notes order = JStr ""
    /\ Order.paymentMethod order = JStr "cash".
Proof.
  intros w1.
  assert (Hcart : cart_of w1 (req_userId checkout) = Some (Cart.mk [pizza 2] 20))
    by (vm_compute; reflexivity).
  destruct (order_round_trip calm_env calm_env checkout w1
              (Cart.mk [pizza 2] 20)
              eq_refl eq_refl eq_refl eq_refl eq_refl Hcart
              ltac:(discriminate) eq_refl eq_refl eq_refl)
    as (orderId & order & Hr & Hback & Hitems & Htotal & _ & Hnotes & _
        & Hpay & _).
  exists orderId, order.
  split; [exact Hr|]. split; [exact Hback|].
  split; [exact Hitems|]. split; [exact Htotal|].
  split; [exact (Hnotes eq_refl)|exact (Hpay eq_refl)].
Defined.

(** C5, as stated, fails: an identifier that is not well formed makes
    [new ObjectId] throw inside [try], and the [catch] block answers 500,
    not 404. *)
Lemma getOrder_malformed_id_is_500 :
  ObjectId "abc" = None
  /\ getOrder calm_env "abc" empty_world
     = (Response 500 (ErrorBody "Failed to get order"), empty_world)
  /\ code (getOrder calm_env "abc" empty_world).1 <> 404.
Proof. split; [reflexivity|split; [reflexivity|simpl; lia]]. Qed.

(** C5, amended.  [getOrder] answers 404 exactly when MongoDB answers,
    [orderId] is a well-formed identifier and no order is stored under
    it; when [orderId] is not well formed the answer is 500 "Failed to
    get order".  The stores are never changed. *)
Theorem getOrder_not_found (e : env) (orderId : string) (w : world) :
  let r := getOrder e orderId w in
  (code r.1 = 404 <->
   mongo_ok e = true /\
   exists i, ObjectId orderId = Some i /\ orders w !! i = None)
  /\ (ObjectId orderId = None ->
      r.1 = Response 500 (ErrorBody "Failed to get order"))
  /\ r.2 = w.
Proof.
  intros r. subst r. unfold getOrder. unfold_monad.
  destruct (ObjectId orderId) as [i|]; simpl.
  - destruct (mongo_ok e); simpl.
    + destruct (orders w !! i) as [o|] eqn:Ho; simpl.
      * split; [|done]. split; [discriminate|].
        intros (_ & j & [= <-] & Hj). congruence.
      * split; [|done]. split; [|done]. intros _. eauto.
    + split; [|done]. split; [discriminate|]. by intros [? _].
  - split; [|done]. split; [discriminate|]. by intros (_ & j & ? & _).
Qed.

(** ** Changing the status of an order *)

Lemma includes_spec (l : list string) (v : value) :
  includes l v = true <-> exists s, In s l /\ v = JStr s.
Proof.
  unfold includes. induction l as [|a l IH]; cbn [existsb In].
  - split; [discriminate|]. by intros (s & [] & _).
  - rewrite orb_true_iff, IH. split.
    + intros [H%strict_eq_true|(s & Hs & ->)]; eauto.
    + intros (s & [->|Hs] & ->); [left|right; eauto].
      by apply strict_eq_refl.
Qed.

Lemma includes_validStatuses (v : value) :
  includes validStatuses v = true <-> spec_status v.
Proof.
  rewrite includes_spec. unfold validStatuses, spec_status.
  cbn [In]. split.
  - intros (s & H & ->). intuition (subst; auto).
  - intros H. repeat (destruct H as [->|H]; [eexists; split; [|done]; tauto|]).
    subst v. eexists; split; [|done]. tauto.
Qed.



(** * Further properties of the order service *)

(** ** Distinct identifiers *)

Lemma strict_eq_sym (a b : value) : strict_eq a b = strict_eq b a.
Proof.
  destruct a as [| |x|x| |x], b as [| |y|y| |y]; simpl; try done.
  - by destruct x, y.
  - apply Z.eqb_sym.
  - apply String.eqb_sym.
Qed.


Lemma distinct_ids_alter (f : CartItem.t -> CartItem.t) (l : list CartItem.t)
  (k : nat) :
  (forall x, CartItem.itemId (f x) = CartItem.itemId x) ->
  distinct_ids l -> distinct_ids (alter f k l).
Proof.
  intros Hf Hl i j x y Hi Hj.
  assert (Hget : forall n z, alter f k l !! n = Some z ->
            exists z0, l !! n = Some z0 /\
                       CartItem.itemId z = CartItem.itemId z0).
  { intros n z Hn. rewrite list_lookup_alter in Hn.
    case_decide; [subst k|eauto].
    destruct (l !! n) as [z0|]; simpl in Hn; [|done].
    injection Hn as <-. eauto. }
  apply Hget in Hi as (x0 & Hi & ->). apply Hget in Hj as (y0 & Hj & ->).
  by apply Hl.
Qed.


Lemma distinct_ids_snoc (l : list CartItem.t) (y : CartItem.t) :
  distinct_ids l ->
  (forall x, x ∈ l -> same_id (CartItem.itemId y) x = false) ->
  distinct_ids (l ++ [y]).
Proof.
  intros Hl Hnew i j a b Hi Hj Heq.
  assert (Hcase : forall n z, (l ++ [y]) !! n = Some z ->
            l !! n = Some z \/ (n = length l /\ z = y)).
  { intros n z Hn. apply lookup_app_Some in Hn as [?|[? Hn]]; [by left|].
    apply list_lookup_singleton_Some in Hn as [? ->]. right. split; [lia|done]. }
  apply Hcase in Hi as [Hi|[-> ->]]; apply Hcase in Hj as [Hj|[-> ->]].
  - by apply (Hl i j a b).
  - unfold same_id in Hnew. rewrite (Hnew a) in Heq; [done|].
    apply list_elem_of_lookup. eauto.
  - unfold same_id in Hnew. rewrite strict_eq_sym, (Hnew b) in Heq; [done|].
    apply list_elem_of_lookup. eauto.
  - done.
Qed.

(** ** What each route keeps *)








Lemma parseInt_is_number (v : value) : is_number (parseInt v) = true.
Proof. apply parseInt_string_is_number. Qed.




Lemma getCart_state (e : env) (u : string) (w : world) : (getCart e u w).2 = w.
Proof.
  unfold getCart. unfold_monad.
  destruct (redis_get_ok e); simpl; [|done].
  by destruct (cache w !! getCartKey (JStr u)).
Qed.

Lemma getOrder_state (e : env) (i : string) (w : world) : (getOrder e i w).2 = w.
Proof.
  unfold getOrder. unfold_monad.
  destruct (ObjectId i) as [k|]; simpl; [|done].
  destruct (mongo_ok e); simpl; [|done].
  by destruct (orders w !! k).
Qed.

Lemma getOrdersForUser_state (e : env) (u : string) (w : world) :
  (getOrdersForUser e u w).2 = w.
Proof.
  unfold getOrdersForUser, find_by_userId. unfold_monad.
  by destruct (mongo_ok e).
Qed.




(** ** Invariants of the stores *)





(** ** Orders are kept *)

Lemma same_snapshot_refl (o : Order.t) : same_snapshot o o.
Proof. by repeat split. Qed.

Lemma same_snapshot_trans (o1 o2 o3 : Order.t) :
  same_snapshot o1 o2 -> same_snapshot o2 o3 -> same_snapshot o1 o3.
Proof.
  intros (? & ? & ? & ? & ? & ? & ?) (? & ? & ? & ? & ? & ? & ?).
  repeat split; congruence.
Qed.

Lemma cart_routes_keep_orders (e : env) (rq : request) (w : world) :
  match rq with PlaceOrder _ | UpdateOrderStatus _ _ => False | _ => True end ->
  orders (handle e rq w) = orders w.
Proof.
  destruct rq as [u|u item|u p q|u|req|u|i|i st]; simpl; try done; intros _.
  - by rewrite getCart_state.
  - unfold addItem. unfold_monad.
    destruct (redis_get_ok e); simpl; [|done].
    by destruct (redis_setEx_ok e).
  - unfold updateItemQuantity. unfold_monad.
    destruct (redis_get_ok e); simpl; [|done].
    destruct (cache w !! getCartKey (JStr u)); simpl; [|done].
    destruct (findIndex _ _ =? -1); simpl; [done|].
    by destruct (redis_setEx_ok e).
  - unfold clearCart. unfold_monad. by destruct (redis_del_ok e).
  - by rewrite getOrdersForUser_state.
  - by rewrite getOrder_state.
Qed.

Lemma placeOrder_orders (e : env) (req : order_request) (w : world) :
  orders (placeOrder e req w).2 = orders w \/
  (orders w !! generated_id e = None /\
   exists doc, orders (placeOrder e req w).2
               = <[generated_id e := doc]> (orders w)).
Proof.
  unfold placeOrder.
  destruct (negb (truthy (req_userId req))
            || negb (truthy (req_deliveryAddress req))); simpl; [by left|].
  unfold_monad.
  destruct (redis_get_ok e); simpl; [|by left].
  destruct (cache w !! getCartKey (req_userId req)) as [en|]; simpl;
    [|by left].
  destruct (Z.of_nat (length (Cart.items (cached en))) =? 0); simpl;
    [by left|].
  destruct (mongo_ok e); simpl; [|by left].
  destruct (orders w !! generated_id e) eqn:Hfresh; simpl; [by left|].
  right. split; [done|]. destruct (redis_del_ok e); simpl; eauto.
Qed.

Lemma updateOrderStatus_orders
  (e : env) (i : string) (st : value) (w : world) :
  orders (updateOrderStatus e i st w).2 = orders w \/
  exists k o, orders w !! k = Some o /\
              orders (updateOrderStatus e i st w).2
              = <[k := set_status st (now e) o]> (orders w).
Proof.
  unfold updateOrderStatus.
  destruct (includes validStatuses st); simpl; [|by left].
  unfold_monad.
  destruct (ObjectId i) as [k|]; simpl; [|by left].
  destruct (mongo_ok e); simpl; [|by left].
  destruct (orders w !! k) as [o|] eqn:Ho; simpl; [|by left].
  right. eauto.
Qed.

Lemma handle_keeps_order (e : env) (rq : request) (w : world)
  (i : oid) (o : Order.t) :
  orders w !! i = Some o ->
  exists o', orders (handle e rq w) !! i = Some o'
             /\ same_snapshot o o'
             /\ (is_status_update rq = false -> o' = o).
Proof.
  intros Ho.
  assert (Hsame : orders (handle e rq w) = orders w ->
            exists o', orders (handle e rq w) !! i = Some o'
                       /\ same_snapshot o o'
                       /\ (is_status_update rq = false -> o' = o)).
  { intros ->. exists o. split; [done|]. split; [apply same_snapshot_refl|done]. }
  destruct rq as [u|u item|u p q|u|req|u|k|k st];
    try (apply Hsame; by apply cart_routes_keep_orders).
  - simpl in *. destruct (placeOrder_orders e req w) as [Heq|[Hfresh [doc Heq]]];
      [by apply Hsame|].
    rewrite Heq. exists o. rewrite lookup_insert_ne by congruence.
    split; [done|]. split; [apply same_snapshot_refl|done].
  - simpl in *.
    destruct (updateOrderStatus_orders e k st w) as [Heq|(j & o0 & Hj & Heq)];
      [by apply Hsame|].
    rewrite Heq. destruct (decide (j = i)) as [->|Hne].
    + rewrite lookup_insert_eq. eexists. split; [done|].
      assert (o0 = o) as -> by congruence.
      split; [by repeat split|done].
    + rewrite lookup_insert_ne by done. exists o.
      split; [done|]. split; [apply same_snapshot_refl|done].
Qed.

(** X3.  An order, once stored, stays: after any sequence of requests it
    is still stored under its identifier, with the same user, items,
    total amount, delivery address, notes, payment method and creation
    time; and it is unchanged altogether when none of the requests is a
    status update. *)
Theorem orders_are_kept
  (trace : list (env * request)) (w : world) (i : oid) (o : Order.t) :
  orders w !! i = Some o ->
  exists o',
    orders (serve trace w) !! i = Some o'
    /\ same_snapshot o o'
    /\ (forallb (fun step => negb (is_status_update step.2)) trace = true ->
        o' = o).
Proof.
  unfold serve. revert w o.
  induction trace as [|[e rq] trace IH]; intros w o Ho; simpl.
  - exists o. split; [done|]. split; [apply same_snapshot_refl|done].
  - destruct (handle_keeps_order e rq w i o Ho) as (o1 & Ho1 & Hsame1 & Heq1).
    destruct (IH _ _ Ho1) as (o2 & Ho2 & Hsame2 & Heq2).
    exists o2. split; [done|]. split; [by eapply same_snapshot_trans|].
    intros [Hrq Hrest]%andb_prop. rewrite Heq2 by done.
    apply Heq1. by apply negb_true_iff.
Qed.

(** X3 at work: the order of the checkout, after a status update, a new
    cart and its clearing. *)
Lemma orders_are_kept_witness :
  exists o',
    orders
      (serve [(calm_env, UpdateOrderStatus sample_id (JStr "delivered"));
              (calm_env, AddItem "7" (pizza 1));
              (calm_env, ClearCart "7")] after_checkout) !! sample_id
    = Some o'
    /\ Order.items o' = [pizza 2]
    /\ Order.totalAmount o' = 20.
Proof.
  destruct (orders_are_kept
              [(calm_env, UpdateOrderStatus sample_id (JStr "delivered"));
               (calm_env, AddItem "7" (pizza 1));
               (calm_env, ClearCart "7")]
              after_checkout sample_id
              (order_document calm_env checkout (Cart.mk [pizza 2] 20))
              ltac:(vm_compute; reflexivity))
    as (o' & Ho' & (_ & Hitems & Htotal & _) & _).
  exists o'. split; [exact Ho'|]. split.
  - rewrite Hitems. reflexivity.
  - rewrite Htotal. reflexivity.
Defined.

(** ** One cart per user *)

Lemma getCartKey_inj (u u' : string) :
  getCartKey (JStr u) = getCartKey (JStr u') -> u = u'.
Proof. unfold getCartKey. simpl. intros H. by simplify_eq. Qed.

(** A request writes at most the cache entry of its cart's owner. *)
Lemma handle_cache_other (e : env) (rq : request) (w : world) (k : string) :
  (forall u, cart_owner rq = Some u -> k <> getCartKey (JStr u)) ->
  cache (handle e rq w) !! k = cache w !! k.
Proof.
  intros Hk.
  destruct rq as [u|u item|u p q|u|req|u|i|i st]; simpl in *.
  - by rewrite getCart_state.
  - specialize (Hk u eq_refl). unfold addItem. unfold_monad.
    destruct (redis_get_ok e); simpl; [|done].
    destruct (redis_setEx_ok e); simpl; [|done].
    by rewrite lookup_insert_ne.
  - specialize (Hk u eq_refl). unfold updateItemQuantity. unfold_monad.
    destruct (redis_get_ok e); simpl; [|done].
    destruct (cache w !! getCartKey (JStr u)); simpl; [|done].
    destruct (findIndex _ _ =? -1); simpl; [done|].
    destruct (redis_setEx_ok e); simpl; [|done].
    by rewrite lookup_insert_ne.
  - specialize (Hk u eq_refl). unfold clearCart. unfold_monad.
    destruct (redis_del_ok e); simpl; [|done].
    by rewrite lookup_delete_ne.
  - specialize (Hk _ eq_refl). rewrite getCartKey_to_string in Hk.
    unfold placeOrder.
    destruct (negb (truthy (req_userId req))
              || negb (truthy (req_deliveryAddress req))); simpl; [done|].
    unfold_monad.
    destruct (redis_get_ok e); simpl; [|done].
    destruct (cache w !! getCartKey (req_userId req)) as [en|]; simpl;
      [|done].
    destruct (Z.of_nat (length (Cart.items (cached en))) =? 0); simpl;
      [done|].
    destruct (mongo_ok e); simpl; [|done].
    destruct (orders w !! generated_id e); simpl; [done|].
    destruct (redis_del_ok e); simpl; [|done].
    by rewrite lookup_delete_ne.
  - by rewrite getOrdersForUser_state.
  - by rewrite getOrder_state.
  - unfold updateOrderStatus.
    destruct (includes validStatuses st); simpl; [|done].
    unfold_monad.
    destruct (ObjectId i) as [j|]; simpl; [|done].
    destruct (mongo_ok e); simpl; [|done].
    by destruct (orders w !! j).
Qed.

(** X4.  Carts do not interfere: a sequence of requests none of which is
    a cart request or a checkout of user [u] leaves the cache entry of
    [u] (cart and time to live) exactly as it was. *)
Theorem other_users_leave_the_cart
  (trace : list (env * request)) (w : world) (u : string) :
  Forall (fun step => cart_owner step.2 <> Some u) trace ->
  cache (serve trace w) !! getCartKey (JStr u)
  = cache w !! getCartKey (JStr u).
Proof.
  unfold serve. revert w.
  induction trace as [|[e rq] trace IH]; intros w Htrace; simpl; [done|].
  apply Forall_cons in Htrace as [Hrq Htrace].
  rewrite IH by done. apply handle_cache_other.
  intros u' Hu' Hkey. apply getCartKey_inj in Hkey as ->. done.
Qed.

(** X4 at work: while user 7 has two pizzas in the cart, user 8 fills a
    cart, checks out and clears; the cart of user 7 is still there. *)
Lemma other_users_leave_the_cart_witness :
  cart_of
    (serve [(calm_env, AddItem "8" (pizza 4));
            (later_env, PlaceOrder
                          (OrderRequest (JNum 8) (JStr "5 High St")
                                        JUndefined JUndefined));
            (calm_env, ClearCart "8")] with_cart) (JStr "7")
  = Some (Cart.mk [pizza 2] 20).
Proof.
  unfold cart_of.
  rewrite (other_users_leave_the_cart
             [(calm_env, AddItem "8" (pizza 4));
              (later_env, PlaceOrder
                            (OrderRequest (JNum 8) (JStr "5 High St")
                                          JUndefined JUndefined));
              (calm_env, ClearCart "8")] with_cart "7").
  - vm_compute. reflexivity.
  - repeat constructor; simpl; vm_compute; discriminate.
Defined.

(** ** Reading and clearing a cart *)

Lemma getCart_run (e : env) (u : string) (w : world) :
  redis_get_ok e = true ->
  getCart e u w
  = (Response 200 (CartBody (default empty_cart (cart_of w (JStr u)))), w).
Proof.
  intros Hget. unfold getCart, cart_of. unfold_monad. rewrite Hget.
  by destruct (cache w !! getCartKey (JStr u)).
Qed.

(** A cart route that answers with a cart has stored that cart. *)
Lemma addItem_answer_stored
  (e : env) (u : string) (req : CartItem.t) (w : world) (c : Cart.t) :
  json (addItem e u req w).1 = CartBody c ->
  cart_of (addItem e u req w).2 (JStr u) = Some c.
Proof.
  unfold addItem, cart_of. unfold_monad.
  destruct (redis_get_ok e); simpl; [|done].
  destruct (redis_setEx_ok e); simpl; [|done].
  intros [= <-]. by rewrite lookup_insert_eq.
Qed.

Lemma updateItemQuantity_answer_stored
  (e : env) (u p : string) (q : Z) (w : world) (c : Cart.t) :
  json (updateItemQuantity e u p q w).1 = CartBody c ->
  cart_of (updateItemQuantity e u p q w).2 (JStr u) = Some c.
Proof.
  unfold updateItemQuantity, cart_of. unfold_monad.
  destruct (redis_get_ok e); simpl; [|done].
  destruct (cache w !! getCartKey (JStr u)); simpl; [|done].
  destruct (findIndex _ _ =? -1); simpl; [done|].
  destruct (redis_setEx_ok e); simpl; [|done].
  intros [= <-]. by rewrite lookup_insert_eq.
Qed.

(** X5.  Read your writes: the cart that [addItem] or
    [updateItemQuantity] answers with is the cart a following [getCart]
    of the same user answers with (the cache answering the read), and
    [getCart] changes nothing. *)
Theorem getCart_returns_the_last_answer
  (e e' : env) (u : string) (w : world) (c : Cart.t) :
  redis_get_ok e' = true ->
  (forall req,
     json (addItem e u req w).1 = CartBody c ->
     getCart e' u (addItem e u req w).2
     = (Response 200 (CartBody c), (addItem e u req w).2))
  /\
  (forall p q,
     json (updateItemQuantity e u p q w).1 = CartBody c ->
     getCart e' u (updateItemQuantity e u p q w).2
     = (Response 200 (CartBody c), (updateItemQuantity e u p q w).2)).
Proof.
  intros Hget. split.
  - intros req Hc%addItem_answer_stored.
    rewrite getCart_run by done. by rewrite Hc.
  - intros p q Hc%updateItemQuantity_answer_stored.
    rewrite getCart_run by done. by rewrite Hc.
Qed.

(** X5 at work: two pizzas added, then read back. *)
Lemma getCart_returns_the_last_answer_witness :
  getCart calm_env "7" with_cart
  = (Response 200 (CartBody (Cart.mk [pizza 2] 20)), with_cart).
Proof.
  apply (proj1 (getCart_returns_the_last_answer calm_env calm_env "7"
                  empty_world (Cart.mk [pizza 2] 20) eq_refl) (pizza 2)).
  reflexivity.
Defined.

Lemma clearCart_run (e : env) (u : string) (w : world) :
  redis_del_ok e = true ->
  clearCart e u w
  = (Response 200 (ClearedBody "Cart cleared" empty_cart),
     World (delete (getCartKey (JStr u)) (cache w)) (orders w)).
Proof. intros Hdel. unfold clearCart. unfold_monad. by rewrite Hdel. Qed.

(** X6.  When Redis accepts the delete, [clearCart] answers 200 whether
    or not the user had a cart, touches no order, and leaves the user
    without a cart: a following [getCart] answers [{items: [], total:
    0}], [updateItemQuantity] answers 404 "Cart not found", a checkout
    answers 400 "Cart is empty"; clearing again changes nothing, and
    clearing an absent cart changes nothing at all. *)
Theorem clearCart_leaves_no_cart (e : env) (u : string) (w : world) :
  redis_del_ok e = true ->
  let r := clearCart e u w in
  r.1 = Response 200 (ClearedBody "Cart cleared" (Cart.mk [] 0))
  /\ orders r.2 = orders w
  /\ cart_of r.2 (JStr u) = None
  /\ (cart_of w (JStr u) = None -> r.2 = w)
  /\ (forall e', (clearCart e' u r.2).2 = r.2)
  /\ (forall e', redis_get_ok e' = true ->
        getCart e' u r.2 = (Response 200 (CartBody (Cart.mk [] 0)), r.2)
        /\ (forall p q,
              updateItemQuantity e' u p q r.2
              = (Response 404 (ErrorBody "Cart not found"), r.2))
        /\ (forall address notes pay,
              truthy address = true ->
              u <> "" ->
              placeOrder e' (OrderRequest (JStr u) address notes pay) r.2
              = (Response 400 (ErrorBody "Cart is empty"), r.2))).
Proof.
  intros Hdel r. subst r. rewrite clearCart_run by done. simpl.
  assert (Hnone : cart_of (World (delete (getCartKey (JStr u)) (cache w))
                                 (orders w)) (JStr u) = None).
  { unfold cart_of. simpl. by rewrite lookup_delete_eq. }
  split; [done|]. split; [done|]. split; [done|]. split; [|split].
  - intros Hw%cart_of_None. rewrite delete_id by done. by destruct w.
  - intros e'. unfold clearCart. unfold_monad.
    destruct (redis_del_ok e'); simpl; [|done].
    by rewrite delete_delete_eq.
  - intros e' Hget. split; [|split].
    + rewrite getCart_run by done. by rewrite Hnone.
    + intros p q. by apply updateItemQuantity_no_cart.
    + intros address notes pay Ha Hu.
      apply placeOrder_empty; simpl.
      * rewrite Ha. destruct u; [done|]. done.
      * done.
      * by rewrite Hnone.
Qed.

(** X6 at work: the cart with two pizzas is cleared. *)
Lemma clearCart_leaves_no_cart_witness :
  getCart calm_env "7" (clearCart calm_env "7" with_cart).2
  = (Response 200 (CartBody (Cart.mk [] 0)),
     (clearCart calm_env "7" with_cart).2).
Proof.
  destruct (clearCart_leaves_no_cart calm_env "7" with_cart eq_refl)
    as (_ & _ & _ & _ & _ & Hafter).
  apply (Hafter calm_env eq_refl).
Defined.

(** ** A sequence of additions *)


Lemma distinct_ids_app_l (l1 l2 : list CartItem.t) :
  distinct_ids (l1 ++ l2) -> distinct_ids l1.
Proof.
  intros H i j x y Hi Hj. apply H; by apply lookup_app_l_Some.
Qed.






(** ** Checkout: what a 201 means, retries, partial failure *)

Lemma placeOrder_201 (e : env) (req : order_request) (w : world) :
  code (placeOrder e req w).1 = 201 ->
  exists cart,
    cart_of w (req_userId req) = Some cart
    /\ Cart.items cart <> []
    /\ orders w !! generated_id e = None
    /\ placeOrder e req w
       = (Response 201
            (PlacedBody "Order placed successfully" (generated_id e)
                        (order_document e req cart)),
          World (delete (getCartKey (req_userId req)) (cache w))
                (<[generated_id e := order_document e req cart]> (orders w))).
Proof.
  unfold placeOrder, cart_of.
  destruct (negb (truthy (req_userId req))
            || negb (truthy (req_deliveryAddress req))); simpl; [done|].
  unfold_monad.
  destruct (redis_get_ok e); simpl; [|done].
  destruct (cache w !! getCartKey (req_userId req)) as [en|]; simpl; [|done].
  destruct (Cart.items (cached en)) as [|item rest] eqn:Hitems; simpl; [done|].
  destruct (mongo_ok e); simpl; [|done].
  destruct (orders w !! generated_id e); simpl; [done|].
  destruct (redis_del_ok e); simpl; [|done].
  intros _. exists (cached en). by rewrite Hitems.
Qed.

(** X8.  A checkout that succeeded cannot be repeated by resending it:
    after a 201, a checkout for the same cart key with both required
    fields present (the cache answering) answers 400 "Cart is empty" and
    stores nothing. *)
Theorem second_checkout_is_rejected
  (e e' : env) (req req' : order_request) (w : world) :
  code (placeOrder e req w).1 = 201 ->
  redis_get_ok e' = true ->
  truthy (req_userId req') = true ->
  truthy (req_deliveryAddress req') = true ->
  getCartKey (req_userId req') = getCartKey (req_userId req) ->
  placeOrder e' req' (placeOrder e req w).2
  = (Response 400 (ErrorBody "Cart is empty"), (placeOrder e req w).2).
Proof.
  intros (cart & _ & _ & _ & ->)%placeOrder_201 Hget Hu Ha Hkey.
  apply placeOrder_empty; [by rewrite Hu, Ha|done|].
  unfold cart_of. simpl. rewrite Hkey. by rewrite lookup_delete_eq.
Qed.

(** X8 at work: the checkout of the two pizzas, sent twice. *)
Lemma second_checkout_is_rejected_witness :
  placeOrder later_env checkout after_checkout
  = (Response 400 (ErrorBody "Cart is empty"), after_checkout).
Proof.
  apply (second_checkout_is_rejected calm_env later_env checkout checkout
           with_cart); reflexivity.
Defined.

(** X9.  The checkout is not atomic.  If the order is inserted and Redis
    then refuses the delete, the answer is 500 "Failed to place order"
    although the order is stored, and the cart is still in the cache; a
    retry that goes through (with a newly generated identifier) answers
    201 and stores a second order with the same items and total. *)
Theorem checkout_insert_survives_failed_delete
  (e e2 : env) (req : order_request) (w : world) (cart : Cart.t) :
  truthy (req_userId req) = true ->
  truthy (req_deliveryAddress req) = true ->
  redis_get_ok e = true ->
  mongo_ok e = true ->
  redis_del_ok e = false ->
  cart_of w (req_userId req) = Some cart ->
  Cart.items cart <> [] ->
  orders w !! generated_id e = None ->
  redis_get_ok e2 = true ->
  mongo_ok e2 = true ->
  redis_del_ok e2 = true ->
  orders w !! generated_id e2 = None ->
  generated_id e2 <> generated_id e ->
  let w1 := World (cache w)
                  (<[generated_id e := order_document e req cart]> (orders w)) in
  placeOrder e req w
  = (Response 500 (ErrorBody "Failed to place order"), w1)
  /\ cart_of w1 (req_userId req) = Some cart
  /\ code (placeOrder e2 req w1).1 = 201
  /\ orders (placeOrder e2 req w1).2 !! generated_id e
     = Some (order_document e req cart)
  /\ orders (placeOrder e2 req w1).2 !! generated_id e2
     = Some (order_document e2 req cart).
Proof.
  intros Hu Ha Hget Hmongo Hdel Hcart Hitems Hfresh Hget2 Hmongo2 Hdel2
         Hfresh2 Hne w1.
  assert (Hfirst : placeOrder e req w
                   = (Response 500 (ErrorBody "Failed to place order"), w1)).
  { pose proof Hcart as (en & Hen & <-)%cart_of_Some.
    unfold placeOrder. rewrite Hu, Ha. simpl. unfold_monad.
    rewrite Hget, Hen. simpl.
    destruct (Cart.items (cached en)) as [|item rest] eqn:Hits; [done|].
    simpl. by rewrite Hmongo, Hfresh, Hdel. }
  split; [done|]. split; [done|].
  rewrite (placeOrder_success e2 req w1 cart); try done.
  - simpl. split; [done|].
    rewrite lookup_insert_ne by done. rewrite lookup_insert_eq.
    by rewrite lookup_insert_eq.
  - subst w1. simpl. by rewrite lookup_insert_ne.
Qed.

(** X9 at work: Redis refuses the delete at the checkout of the two
    pizzas; the client retries a minute later. *)
Lemma checkout_insert_survives_failed_delete_witness :
  placeOrder redis_del_down checkout with_cart
  = (Response 500 (ErrorBody "Failed to place order"),
     World (cache with_cart)
           (<[sample_id := order_document redis_del_down checkout
                             (Cart.mk [pizza 2] 20)]> (orders with_cart)))
  /\ code (placeOrder later_env checkout
             (placeOrder redis_del_down checkout with_cart).2).1 = 201.
Proof.
  destruct (checkout_insert_survives_failed_delete redis_del_down later_env
              checkout with_cart (Cart.mk [pizza 2] 20)
              eq_refl eq_refl eq_refl eq_refl eq_refl
              ltac:(vm_compute; reflexivity) ltac:(discriminate)
              eq_refl eq_refl eq_refl eq_refl eq_refl ltac:(discriminate))
    as (Hfirst & _ & Hretry & _).
  split; [exact Hfirst|]. rewrite Hfirst. exact Hretry.
Defined.

(** ** Status updates, read back *)

(** X10.  After [updateOrderStatus] answered 200, [getOrder] on the same
    identifier shows the order with the new status and the time of the
    update as [updatedAt], everything else as before; the status is one
    of the six, no other order changed, and the cache is untouched. *)
Theorem status_update_is_read_back
  (e e' : env) (orderId : string) (status : value) (w : world) :
  code (updateOrderStatus e orderId status w).1 = 200 ->
  mongo_ok e' = true ->
  let w' := (updateOrderStatus e orderId status w).2 in
  exists i o o',
    ObjectId orderId = Some i
    /\ orders w !! i = Some o
    /\ getOrder e' orderId w' = (Response 200 (OrderBody i o'), w')
    /\ Order.status o' = status
    /\ Order.updatedAt o' = now e
    /\ same_snapshot o o'
    /\ spec_status status
    /\ (forall j, j <> i -> orders w' !! j = orders w !! j)
    /\ cache w' = cache w.
Proof.
  intros Hcode Hmongo' w'. subst w'. revert Hcode.
  unfold updateOrderStatus.
  destruct (includes validStatuses status) eqn:Hvalid; simpl; [|done].
  apply includes_validStatuses in Hvalid.
  unfold_monad.
  destruct (ObjectId orderId) as [i|] eqn:Hid; simpl; [|done].
  destruct (mongo_ok e); simpl; [|done].
  destruct (orders w !! i) as [o|] eqn:Ho; simpl; [|done].
  intros _. exists i, o, (set_status status (now e) o).
  split; [done|]. split; [done|]. split.
  - unfold getOrder. unfold_monad. rewrite Hid, Hmongo'. simpl.
    by rewrite lookup_insert_eq.
  - repeat split; try done.
    intros j Hj. by rewrite lookup_insert_ne.
Qed.

(** X10 at work: the order of the checkout is marked delivered. *)
Lemma status_update_is_read_back_witness :
  exists o',
    getOrder calm_env sample_id
      (updateOrderStatus later_env sample_id (JStr "delivered")
         after_checkout).2
    = (Response 200 (OrderBody sample_id o'),
       (updateOrderStatus later_env sample_id (JStr "delivered")
          after_checkout).2)
    /\ Order.status o' = JStr "delivered"
    /\ Order.updatedAt o' = 1700000060000.
Proof.
  destruct (status_update_is_read_back later_env calm_env sample_id
              (JStr "delivered") after_checkout eq_refl eq_refl)
    as (i & o & o' & Hi & _ & Hget & Hstatus & Hupdated & _).
  injection Hi as <-.
  exists o'. split; [exact Hget|]. split; [exact Hstatus|exact Hupdated].
Defined.

(** ** The listing of a user's orders *)

Lemma insert_newest_first_perm (x : oid * Order.t) (l : list (oid * Order.t)) :
  insert_newest_first x l ≡ₚ x :: l.
Proof.
  induction l as [|y l IH]; simpl; [done|].
  destruct (Order.createdAt y.2 <=? Order.createdAt x.2); [done|].
  rewrite IH. apply Permutation_swap.
Qed.

Lemma sort_newest_first_perm (l : list (oid * Order.t)) :
  sort_newest_first l ≡ₚ l.
Proof.
  induction l as [|x l IH]; simpl; [done|].
  by rewrite insert_newest_first_perm, IH.
Qed.

Lemma insert_newest_first_sorted
  (x : oid * Order.t) (l : list (oid * Order.t)) :
  newest_first l -> newest_first (insert_newest_first x l).
Proof.
  induction l as [|y l IH]; simpl; intros Hl.
  - split; [|done]. intros z Hz. inversion Hz.
  - destruct Hl as [Hy Hl].
    destruct (Order.createdAt y.2 <=? Order.createdAt x.2) eqn:Hle; simpl.
    + apply Z.leb_le in Hle. split; [|done].
      intros z [->|Hz]%elem_of_cons; [done|].
      specialize (Hy z Hz). lia.
    + apply Z.leb_gt in Hle. split; [|by apply IH].
      intros z Hz. rewrite insert_newest_first_perm in Hz.
      apply elem_of_cons in Hz as [->|Hz]; [lia|by apply Hy].
Qed.

Lemma sort_newest_first_sorted (l : list (oid * Order.t)) :
  newest_first (sort_newest_first l).
Proof.
  induction l as [|x l IH]; simpl; [done|].
  by apply insert_newest_first_sorted.
Qed.

Lemma getOrdersForUser_run (e : env) (u : string) (w : world) :
  mongo_ok e = true ->
  getOrdersForUser e u w
  = ((200,
      OrdersBody
        (sort_newest_first
           (List.filter
              (fun d => query_eq (Order.userId d.2) (parseInt (JStr u)))
              (map_to_list (orders w))))),
     w).
Proof.
  intros Hmongo. unfold getOrdersForUser, find_by_userId. unfold_monad.
  by rewrite Hmongo.
Qed.

Lemma listed_iff (u : value) (m : gmap string Order.t) (i : oid) (o : Order.t) :
  (i, o) ∈ sort_newest_first
             (List.filter (fun d => query_eq (Order.userId d.2) u)
                          (map_to_list m))
  <-> m !! i = Some o /\ query_eq (Order.userId o) u = true.
Proof.
  rewrite sort_newest_first_perm, list_elem_of_In, filter_In.
  rewrite <- list_elem_of_In, elem_of_map_to_list. done.
Qed.

(** X11.  [getOrdersForUser] never changes the stores.  When MongoDB
    does not answer it responds 500 "Failed to get orders".  Otherwise
    it responds 200 with a list, newest first and without repetition, of
    exactly the stored orders whose [userId] equals the parsed path
    parameter (two [NaN] counting as equal). *)
Theorem getOrdersForUser_lists_the_users_orders
  (e : env) (u : string) (w : world) :
  let r := getOrdersForUser e u w in
  r.2 = w
  /\ (mongo_ok e = false -> r.1 = (500, ListingError "Failed to get orders"))
  /\ (mongo_ok e = true ->
      exists found,
        r.1 = (200, OrdersBody found)
        /\ newest_first found
        /\ NoDup found
        /\ forall i o,
             (i, o) ∈ found <->
             orders w !! i = Some o
             /\ query_eq (Order.userId o) (parseInt (JStr u)) = true).
Proof.
  intros r. subst r. split; [apply getOrdersForUser_state|]. split.
  - intros Hmongo. unfold getOrdersForUser, find_by_userId. unfold_monad.
    by rewrite Hmongo.
  - intros Hmongo. rewrite getOrdersForUser_run by done. simpl.
    eexists. split; [done|]. split; [apply sort_newest_first_sorted|].
    split; [|apply listed_iff].
    rewrite sort_newest_first_perm.
    apply NoDup_ListNoDup, List.NoDup_filter, NoDup_ListNoDup,
      NoDup_map_to_list.
Qed.

Lemma query_eq_refl (v : value) : is_number v = true -> query_eq v v = true.
Proof. destruct v; simpl; try done. intros _. apply Z.eqb_refl. Qed.

(** X12.  After a checkout answered 201, the new order is in the listing
    of every path parameter that parses to the same number as the
    request's [userId] (both [NaN] included), in particular of the
    [userId] itself written as text; its items and total are those of
    the cart. *)
Theorem checkout_is_listed
  (e e' : env) (req : order_request) (w : world) (u : string) :
  code (placeOrder e req w).1 = 201 ->
  mongo_ok e' = true ->
  u = to_string (req_userId req)
  \/ parseInt (JStr u) = parseInt (req_userId req) ->
  exists cart found,
    cart_of w (req_userId req) = Some cart
    /\ getOrdersForUser e' u (placeOrder e req w).2
       = ((200, OrdersBody found), (placeOrder e req w).2)
    /\ (generated_id e, order_document e req cart) ∈ found
    /\ Order.items (order_document e req cart) = Cart.items cart
    /\ Order.totalAmount (order_document e req cart) = Cart.total cart.
Proof.
  intros (cart & Hcart & _ & _ & ->)%placeOrder_201 Hmongo Hu.
  assert (Hparse : parseInt (JStr u) = parseInt (req_userId req))
    by (by destruct Hu as [->|Hu]).
  exists cart. eexists. split; [done|].
  split; [by apply getOrdersForUser_run|].
  split; [|done]. apply listed_iff. simpl.
  rewrite lookup_insert_eq. split; [done|].
  rewrite Hparse. apply query_eq_refl, parseInt_is_number.
Qed.

(** X12 at work: the checkout of user 7 is listed under [/user/7], and
    under [/user/7th] as well. *)
Lemma checkout_is_listed_witness :
  (exists found,
     (getOrdersForUser calm_env "7" after_checkout).1 = (200, OrdersBody found)
     /\ (sample_id, order_document calm_env checkout (Cart.mk [pizza 2] 20))
        ∈ found)
  /\ (exists found,
        (getOrdersForUser calm_env "7th" after_checkout).1
        = (200, OrdersBody found)
        /\ (sample_id, order_document calm_env checkout (Cart.mk [pizza 2] 20))
           ∈ found).
Proof.
  split.
  - destruct (checkout_is_listed calm_env calm_env checkout with_cart "7"
                eq_refl eq_refl (or_introl eq_refl))
      as (cart & found & Hcart & Hrun & Hin & _).
    vm_compute in Hcart. injection Hcart as <-.
    exists found. split; [|exact Hin].
    unfold after_checkout. by rewrite Hrun.
  - destruct (checkout_is_listed calm_env calm_env checkout with_cart "7th"
                eq_refl eq_refl (or_intror eq_refl))
      as (cart & found & Hcart & Hrun & Hin & _).
    vm_compute in Hcart. injection Hcart as <-.
    exists found. split; [|exact Hin].
    unfold after_checkout. by rewrite Hrun.
Defined.

(** ** Numbers written in decimal are parsed back *)

Lemma pretty_N_char_digit (d : N) :
  (d < 10)%N ->
  is_decimal (pretty_N_char d) = true
  /\ digit_value (pretty_N_char d) = Some (Z.of_N d).
Proof.
  intros Hd.
  assert (d = 0 \/ d = 1 \/ d = 2 \/ d = 3 \/ d = 4 \/ d = 5 \/ d = 6
          \/ d = 7 \/ d = 8 \/ d = 9)%N as H by lia.
  repeat (destruct H as [->|H]; [by vm_compute|]). subst d. by vm_compute.
Qed.

Lemma string_app_assoc (a b c : string) : (a +:+ b) +:+ c = a +:+ (b +:+ c).
Proof.
  induction a as [|x a IH]; [done|]. exact (f_equal (String x) IH).
Qed.

Lemma string_app_nil_r (a : string) : a +:+ "" = a.
Proof.
  induction a as [|x a IH]; [done|]. exact (f_equal (String x) IH).
Qed.

Lemma decimal_app (a b : string) :
  decimal a = true -> decimal b = true -> decimal (a +:+ b) = true.
Proof.
  induction a as [|x a IH]; simpl; [done|].
  intros [Hx Ha]%andb_prop Hb. by rewrite Hx, IH.
Qed.

(** The digits that [pretty] writes for [x], and what [read_digits] makes
    of them. *)
Lemma pretty_N_go_digits (x : N) :
  exists t,
    decimal t = true
    /\ ((0 < x)%N -> t <> "")
    /\ (forall s, pretty_N_go x s = t +:+ s)
    /\ (forall s, read_digits 10 (t +:+ s) None
                  = read_digits 10 s
                      (if decide (x = 0)%N then None else Some (Z.of_N x))).
Proof.
  induction (N.lt_wf_0 x) as [x _ IH].
  destruct (decide (x = 0)%N) as [->|Hx].
  - exists "". by repeat split.
  - destruct (IH (x `div` 10)%N) as (t & Ht & _ & Hgo & Hread).
    { apply N.div_lt; lia. }
    destruct (pretty_N_char_digit (x `mod` 10)%N) as [Hdec Hval].
    { apply N.mod_lt. lia. }
    exists (t +:+ String (pretty_N_char (x `mod` 10)) "").
    split; [|split; [|split]].
    + apply decimal_app; [done|]. simpl. by rewrite Hdec.
    + intros _. by destruct t.
    + intros s. rewrite pretty_N_go_step by lia.
      by rewrite Hgo, string_app_assoc.
    + intros s. rewrite string_app_assoc. simpl. rewrite Hread. simpl.
      rewrite Hval.
      replace (Z.of_N (x `mod` 10) <? 10) with true
        by (symmetry; apply Z.ltb_lt; pose proof (N.mod_lt x 10); lia).
      f_equal. f_equal.
      pose proof (N.div_mod x 10 ltac:(lia)) as Hdm.
      destruct (decide (x `div` 10 = 0)%N) as [E|_]; simpl;
        [rewrite E in Hdm|]; lia.
Qed.

Lemma decimal_no_sign (t : string) :
  decimal t = true -> t <> "" ->
  trim_start t = t /\ strip_sign t = (1, t) /\ strip_radix t = (10, t).
Proof.
  destruct t as [|c r]; [done|]. simpl. intros [Hc Hr]%andb_prop _.
  destruct c as [[] [] [] [] [] [] [] []]; try discriminate Hc;
    try (by repeat split).
  destruct r as [|c2 r2]; [by repeat split|].
  simpl in Hr. apply andb_prop in Hr as [Hc2 _].
  destruct c2 as [[] [] [] [] [] [] [] []]; try discriminate Hc2;
    by repeat split.
Qed.

Lemma parseInt_string_N (x : N) :
  (0 < x)%N ->
  parseInt_string (pretty x) = JNum (Z.of_N x)
  /\ parseInt_string ("-" +:+ pretty x) = JNum (- Z.of_N x).
Proof.
  intros Hx. unfold pretty, pretty_N.
  destruct (decide (x = 0)%N) as [->|_]; [lia|].
  destruct (pretty_N_go_digits x) as (t & Ht & Hne & Hgo & Hread).
  specialize (Hread "").
  rewrite (Hgo ""), string_app_nil_r in *.
  destruct (decide (x = 0)%N) as [->|_]; [lia|]. simpl in Hread.
  destruct (decimal_no_sign t Ht (Hne Hx)) as (Htrim & Hsign & Hradix).
  unfold parseInt_string. split.
  - rewrite Htrim, Hsign, Hradix, Hread. f_equal. lia.
  - change ("-" +:+ t) with (String "-" t).
    change (trim_start (String "-" t)) with (String "-" t).
    change (strip_sign (String "-" t)) with (-1, t).
    cbv beta iota. rewrite Hradix, Hread. f_equal; lia.
Qed.

Lemma parseInt_string_pretty (n : Z) : parseInt_string (pretty n) = JNum n.
Proof.
  destruct n as [|p|p]; [done| |].
  - apply (parseInt_string_N (N.pos p)). lia.
  - apply (parseInt_string_N (N.pos p)). lia.
Qed.

(** X13.  A user id given as the number [n] or as the decimal text of
    [n] ([n] an integer that a double holds exactly) is the same user:
    the cart key is ["cart:user:"] followed by the decimal text either
    way, and the order document carries [n] as its [userId]. *)
Theorem numeric_userId_is_kept
  (e : env) (req : order_request) (cart : Cart.t) (n : Z) :
  Z.abs n <= 9007199254740991 ->
  req_userId req = JNum n \/ req_userId req = JStr (pretty n) ->
  getCartKey (req_userId req) = "cart:user:" +:+ pretty n
  /\ Order.userId (order_document e req cart) = JNum n.
Proof.
  intros _ [Hu|Hu]; unfold order_document, getCartKey, parseInt; simpl;
    rewrite Hu; simpl; by rewrite parseInt_string_pretty.
Qed.

(** X13 at work: user 7 as a number. *)
Lemma numeric_userId_is_kept_witness :
  getCartKey (req_userId checkout) = "cart:user:7"
  /\ Order.userId (order_document calm_env checkout (Cart.mk [pizza 2] 20))
     = JNum 7.
Proof.
  apply (numeric_userId_is_kept calm_env checkout (Cart.mk [pizza 2] 20) 7).
  - simpl. lia.
  - by left.
Defined.

(** ** An item with a number as id can be updated *)

Lemma addItem_items_distinct
  (e : env) (u : string) (req : CartItem.t) (w : world) (c : Cart.t) :
  distinct_ids (Cart.items (default empty_cart (cart_of w (JStr u)))) ->
  cart_of (addItem e u req w).2 (JStr u) = Some c ->
  distinct_ids (Cart.items c).
Proof.
  intros Hd.
  destruct (redis_get_ok e) eqn:Hget; [destruct (redis_setEx_ok e) eqn:Hset|].
  - rewrite addItem_run by done. cbv zeta. cbn [snd].
    rewrite cart_of_insert. intros [= <-]. simpl.
    destruct (findIndex_spec (same_id (CartItem.itemId req))
                (Cart.items (default empty_cart (cart_of w (JStr u)))))
      as [i x _ _ _|Hnone].
    + replace (Z.of_nat i >=? 0) with true
        by (symmetry; apply Z.geb_le; lia).
      by apply distinct_ids_alter.
    + simpl. by apply distinct_ids_snoc.
  - unfold addItem. unfold_monad. rewrite Hget. simpl. rewrite Hset. simpl.
    intros Hc. by rewrite Hc in Hd.
  - unfold addItem. unfold_monad. rewrite Hget. simpl.
    intros Hc. by rewrite Hc in Hd.
Qed.

(** X14.  An item added under the number [n] as id ([n] an integer that
    a double holds exactly) is found by [updateItemQuantity] under the
    path parameter that writes [n] in decimal (Redis answering, the ids
    of the cart being distinct): a
    quantity [> 0] becomes the quantity of the item with id [n], the
    number of items unchanged; a quantity [<= 0] leaves no item with id
    [n], and when [n] was new to the cart, the items are again those
    from before the addition. *)
Theorem numeric_itemId_is_updated
  (e e' : env) (u : string) (req : CartItem.t) (n q : Z) (w : world) :
  Z.abs n <= 9007199254740991 ->
  CartItem.itemId req = JNum n ->
  redis_get_ok e = true ->
  redis_setEx_ok e = true ->
  redis_get_ok e' = true ->
  redis_setEx_ok e' = true ->
  let items0 := Cart.items (default empty_cart (cart_of w (JStr u))) in
  distinct_ids items0 ->
  let w1 := (addItem e u req w).2 in
  exists c1 c2,
    cart_of w1 (JStr u) = Some c1
    /\ (updateItemQuantity e' u (pretty n) q w1).1
       = Response 200 (CartBody c2)
    /\ (0 < q ->
        length (Cart.items c2) = length (Cart.items c1)
        /\ exists item, item ∈ Cart.items c2
                        /\ CartItem.itemId item = JNum n
                        /\ CartItem.quantity item = q)
    /\ (q <= 0 ->
        (forall item, item ∈ Cart.items c2 -> CartItem.itemId item <> JNum n)
        /\ ((forall item, item ∈ items0 -> CartItem.itemId item <> JNum n) ->
            Cart.items c2 = items0)).
Proof.
  intros _ Hid Hget Hset Hget' Hset' items0 Hd w1.
  destruct (addItem_holds_item e u req w Hget Hset)
    as (c1 & item1 & Hc1 & Hitem1 & Hsame1).
  fold w1 in Hc1.
  pose proof (addItem_items_distinct e u req w c1 Hd Hc1) as Hd1.
  assert (Hparse : parseInt (JStr (pretty n)) = JNum n)
    by apply parseInt_string_pretty.
  destruct (findIndex_spec (same_id (JNum n)) (Cart.items c1))
    as [i x Hi Hx Hfirst|Hnone].
  2:{ specialize (Hnone item1 Hitem1). unfold same_id in Hnone.
      rewrite Hsame1, Hid in Hnone. simpl in Hnone.
      by rewrite Z.eqb_refl in Hnone. }
  pose proof (updateItemQuantity_found e' u (pretty n) q w1 c1 i x
                Hget' Hset' Hc1 Hi) as Hrun.
  rewrite Hparse in Hrun. specialize (Hrun Hx Hfirst). cbv zeta in Hrun.
  exists c1. eexists. split; [done|]. split; [by rewrite Hrun|].
  apply strict_eq_true in Hx as Hxid. simpl. split.
  - intros Hq.
    replace (q <=? 0) with false by (symmetry; apply Z.leb_gt; lia).
    split; [apply length_insert|].
    exists (with_quantity q x). split; [|done].
    apply list_elem_of_lookup. exists i.
    apply list_lookup_insert_eq. by apply lookup_lt_Some in Hi.
  - intros Hq.
    replace (q <=? 0) with true by (symmetry; apply Z.leb_le; lia).
    split.
    + intros item [j Hj]%list_elem_of_lookup Hitem.
      rewrite list_lookup_delete in Hj.
      assert (Heq : strict_eq (CartItem.itemId item) (CartItem.itemId x)
                    = true).
      { rewrite Hitem, Hxid. simpl. apply Z.eqb_refl. }
      case_decide.
      * pose proof (Hd1 _ _ _ _ Hj Hi Heq). lia.
      * pose proof (Hd1 _ _ _ _ Hj Hi Heq). lia.
    + intros Hnew.
      assert (Habsent : forall item, item ∈ items0 ->
                same_id (CartItem.itemId req) item = false).
      { intros item Hitem. unfold same_id. rewrite Hid.
        destruct (strict_eq (CartItem.itemId item) (JNum n)) eqn:Heq; [|done].
        apply strict_eq_true in Heq. by destruct (Hnew item Hitem). }
      pose proof (addItem_absent e u req w Hget Hset Habsent) as Hadd.
      cbv zeta in Hadd. fold items0 in Hadd.
      subst w1. rewrite Hadd in Hc1. cbn [snd] in Hc1.
      rewrite cart_of_insert in Hc1. injection Hc1 as <-. simpl in *.
      assert (i = length items0) as ->.
      { apply Nat2Z.inj.
        rewrite <- (findIndex_first (same_id (JNum n)) _ i x Hi Hx Hfirst).
        apply findIndex_first with (x := req).
        - by rewrite list_lookup_middle.
        - unfold same_id. rewrite Hid. simpl. apply Z.eqb_refl.
        - intros j y Hj Hy. rewrite lookup_app_l in Hy by done.
          rewrite <- Hid. apply Habsent, list_elem_of_lookup. eauto. }
      rewrite (delete_middle items0 [] req). apply app_nil_r.
Qed.

(** X14 at work: a salad is added to the cart with two pizzas and then
    removed again by a quantity of 0; at quantity 3 it is kept. *)
Lemma numeric_itemId_is_updated_witness :
  (updateItemQuantity calm_env "7" "2" 0
     (addItem calm_env "7" salad with_cart).2).1
  = Response 200 (CartBody (Cart.mk [pizza 2] 20))
  /\ (updateItemQuantity calm_env "7" "2" 3
        (addItem calm_env "7" salad with_cart).2).1
     = Response 200 (CartBody (Cart.mk [pizza 2; with_quantity 3 salad] 41)).
Proof.
  assert (Hd : distinct_ids
                 (Cart.items (default empty_cart (cart_of with_cart (JStr "7"))))).
  { intros [|i] [|j] x y Hi Hj Heq; simplify_eq/=; done. }
  split.
  - destruct (numeric_itemId_is_updated calm_env calm_env "7" salad 2 0
                with_cart ltac:(simpl; lia) eq_refl eq_refl eq_refl eq_refl
                eq_refl Hd)
      as (c1 & c2 & _ & Hrun & _ & _).
    pose proof Hrun as Hc2. vm_compute in Hc2. injection Hc2 as <-.
    exact Hrun.
  - destruct (numeric_itemId_is_updated calm_env calm_env "7" salad 2 3
                with_cart ltac:(simpl; lia) eq_refl eq_refl eq_refl eq_refl
                eq_refl Hd)
      as (c1 & c2 & _ & Hrun & _ & _).
    pose proof Hrun as Hc2. vm_compute in Hc2. injection Hc2 as <-.
    exact Hrun.
Defined.

(** ** Edge cases of the quantity update *)

Lemma same_id_NaN (item : CartItem.t) : same_id JNaN item = false.
Proof. unfold same_id. by destruct (CartItem.itemId item). Qed.

(** X22.  A path parameter without a leading number ([parseInt] gives
    [NaN]) addresses no item: for every stored cart, whatever its items,
    [updateItemQuantity] answers 404 "Item not found in cart" (the cache
    answering the read) and writes nothing. *)
Theorem updateItemQuantity_without_number
  (e : env) (u p : string) (q : Z) (w : world) (c : Cart.t) :
  redis_get_ok e = true ->
  cart_of w (JStr u) = Some c ->
  parseInt (JStr p) = JNaN ->
  updateItemQuantity e u p q w
  = (Response 404 (ErrorBody "Item not found in cart"), w).
Proof.
  intros Hget Hc Hp.
  apply (updateItemQuantity_no_item e u p q w c); [done|done|].
  intros item _. rewrite Hp. apply same_id_NaN.
Qed.

(** X22 at work: [/items/two] on the cart with two pizzas. *)
Lemma updateItemQuantity_without_number_witness :
  updateItemQuantity calm_env "7" "two" 1 with_cart
  = (Response 404 (ErrorBody "Item not found in cart"), with_cart).
Proof.
  apply (updateItemQuantity_without_number calm_env "7" "two" 1 with_cart
           (Cart.mk [pizza 2] 20)).
  - reflexivity.
  - vm_compute. reflexivity.
  - reflexivity.
Defined.

(** X23.  Removing the only item does not remove the cart: when the
    cart holds exactly one item and a quantity [<= 0] is sent for it
    (Redis answering), the answer is the cart [{items: [], total: 0}],
    which stays in the cache for another 86400 seconds; on that cart a
    checkout answers 400 "Cart is empty" and a further update answers
    404 "Item not found in cart", not "Cart not found". *)
Theorem removing_the_last_item_keeps_the_cart
  (e e' : env) (u p : string) (q : Z) (w : world) (item : CartItem.t)
  (total : Z) :
  redis_get_ok e = true ->
  redis_setEx_ok e = true ->
  redis_get_ok e' = true ->
  cart_of w (JStr u) = Some (Cart.mk [item] total) ->
  same_id (parseInt (JStr p)) item = true ->
  q <= 0 ->
  u <> "" ->
  let r := updateItemQuantity e u p q w in
  r.1 = Response 200 (CartBody (Cart.mk [] 0))
  /\ cache r.2 !! getCartKey (JStr u) = Some (Entry 86400 (Cart.mk [] 0))
  /\ (forall p' q',
        updateItemQuantity e' u p' q' r.2
        = (Response 404 (ErrorBody "Item not found in cart"), r.2))
  /\ (forall address notes pay,
        truthy address = true ->
        placeOrder e' (OrderRequest (JStr u) address notes pay) r.2
        = (Response 400 (ErrorBody "Cart is empty"), r.2)).
Proof.
  intros Hget Hset Hget' Hc Hid Hq Hu r. subst r.
  rewrite (updateItemQuantity_found e u p q w (Cart.mk [item] total) 0 item);
    try done; [|intros j y Hj; lia].
  replace (q <=? 0) with true by (symmetry; apply Z.leb_le; lia).
  simpl. split; [done|]. split; [by rewrite lookup_insert_eq|].
  split.
  - intros p' q'.
    apply (updateItemQuantity_no_item e' u p' q' _ (Cart.mk [] 0));
      [done|apply cart_of_insert|].
    intros x Hx. inversion Hx.
  - intros address notes pay Ha.
    apply placeOrder_empty; simpl.
    + rewrite Ha. by destruct u.
    + done.
    + by rewrite cart_of_insert.
Qed.

(** X23 at work: the two pizzas are removed; the checkout finds an
    empty cart. *)
Lemma removing_the_last_item_keeps_the_cart_witness :
  (updateItemQuantity calm_env "7" "1" 0 with_cart).1
  = Response 200 (CartBody (Cart.mk [] 0))
  /\ placeOrder calm_env
       (OrderRequest (JStr "7") (JStr "123 Main St") JUndefined JUndefined)
       (updateItemQuantity calm_env "7" "1" 0 with_cart).2
     = (Response 400 (ErrorBody "Cart is empty"),
        (updateItemQuantity calm_env "7" "1" 0 with_cart).2).
Proof.
  destruct (removing_the_last_item_keeps_the_cart calm_env calm_env "7" "1" 0
              with_cart (pizza 2) 20 eq_refl eq_refl eq_refl
              ltac:(vm_compute; reflexivity) eq_refl ltac:(lia)
              ltac:(discriminate))
    as (Hanswer & _ & _ & Hcheckout).
  split; [exact Hanswer|]. apply Hcheckout. reflexivity.
Defined.

(** * Properties of the menu service *)

Module MenuFacts.
Import QArith Qround Menu.

Section Facts.

Variable StringToNumber : string -> number.

(** The checks that follow the conversion to a number. *)
Lemma validateRating_checks (r : rating) :
  r <> Undefined -> r <> Null ->
  validateRating StringToNumber r
  = let n := to_number StringToNumber r in
    if isNaN n then Result false (Some "Rating must be a number")
    else if less n (Finite 1) || less (Finite 5) n then
      Result false (Some "Rating must be between 1 and 5")
    else if negb (isInteger n) then
      Result false (Some "Rating must be a whole number")
    else Result true None.
Proof. by destruct r. Qed.

Lemma less_1_iff (q : Q) : less (Finite q) (Finite 1) = true <-> q < 1.
Proof.
  simpl. rewrite negb_true_iff, <- not_true_iff_false, Qle_bool_iff.
  split; [apply Qnot_le_lt|apply Qlt_not_le].
Qed.

Lemma less_5_iff (q : Q) : less (Finite 5) (Finite q) = true <-> 5 < q.
Proof.
  simpl. rewrite negb_true_iff, <- not_true_iff_false, Qle_bool_iff.
  split; [apply Qnot_le_lt|apply Qlt_not_le].
Qed.

Lemma isInteger_iff (q : Q) :
  isInteger (Finite q) = true <-> exists k : Z, q == inject_Z k.
Proof.
  simpl. rewrite Qeq_bool_iff. split.
  - intros H. exists (Qfloor q). by symmetry.
  - intros [k Hk]. rewrite Hk at 1. rewrite Qfloor_Z. by symmetry.
Qed.

Lemma out_of_range_iff (n : number) :
  isNaN n = false ->
  (less n (Finite 1) || less (Finite 5) n = true <-> is_out_of_range n).
Proof.
  destruct n as [q| | |]; simpl; try done.
  intros _. fold (less (Finite q) (Finite 1)) (less (Finite 5) (Finite q)).
  by rewrite orb_true_iff, less_1_iff, less_5_iff.
Qed.

Lemma in_range_integer (q : Q) (k : Z) :
  q == inject_Z k -> ~ q < 1 -> ~ 5 < q -> (1 <= k <= 5)%Z.
Proof.
  intros Hk H1 H5. apply Qnot_lt_le in H1, H5. rewrite Hk in H1, H5.
  change 1 with (inject_Z 1) in H1. change 5 with (inject_Z 5) in H5.
  rewrite <- Zle_Qle in H1, H5. lia.
Qed.

Lemma integer_in_range (q : Q) (k : Z) :
  q == inject_Z k -> (1 <= k <= 5)%Z -> ~ q < 1 /\ ~ 5 < q.
Proof.
  intros Hk [H1 H5]. rewrite Hk.
  change 1 with (inject_Z 1). change 5 with (inject_Z 5).
  split; apply Qle_not_lt; by rewrite <- Zle_Qle.
Qed.

Lemma checks_accept (n : number) :
  valid (if isNaN n then Result false (Some "Rating must be a number")
         else if less n (Finite 1) || less (Finite 5) n then
           Result false (Some "Rating must be between 1 and 5")
         else if negb (isInteger n) then
           Result false (Some "Rating must be a whole number")
         else Result true None) = true
  <-> exists k : Z, (1 <= k <= 5)%Z /\ is_integer n k.
Proof.
  destruct n as [q| | |]; simpl isNaN; cbv iota;
    try (simpl; split; [done|by intros (k & _ & [])]).
  destruct (less (Finite q) (Finite 1) || less (Finite 5) (Finite q))
    eqn:Hrange.
  - simpl. split; [done|]. intros (k & Hk & Hq).
    destruct (integer_in_range q k Hq Hk) as [H1 H5].
    apply orb_true_iff in Hrange as [H%less_1_iff|H%less_5_iff]; done.
  - apply orb_false_iff in Hrange as [H1 H5].
    apply not_true_iff_false in H1, H5.
    rewrite less_1_iff in H1. rewrite less_5_iff in H5.
    destruct (isInteger (Finite q)) eqn:Hint; cbn [negb valid].
    + apply isInteger_iff in Hint as [k Hk]. split; [|done].
      intros _. exists k. split; [by apply (in_range_integer q)|done].
    + split; [done|]. intros (k & _ & Hq).
      apply not_true_iff_false in Hint. destruct Hint.
      apply isInteger_iff. eauto.
Qed.

(** X15.  [validateRating] accepts a rating exactly when it converts to
    one of the integers 1, 2, 3, 4, 5.  (So [true] is accepted, as are
    the strings that convert to such a number; [null], which converts to
    0, is not.) *)
Theorem validateRating_accepts (r : rating) :
  valid (validateRating StringToNumber r) = true
  <-> exists k : Z,
        (1 <= k <= 5)%Z /\ is_integer (to_number StringToNumber r) k.
Proof.
  destruct r as [| |b|n|s].
  - simpl. split; [done|]. by intros (k & _ & []).
  - simpl. split; [done|]. intros (k & Hk & Hq).
    unfold Qeq in Hq. simpl in Hq. lia.
  - rewrite validateRating_checks by done. apply checks_accept.
  - rewrite validateRating_checks by done. apply checks_accept.
  - rewrite validateRating_checks by done. apply checks_accept.
Qed.

Lemma fraction_in_range_iff (q : Q) :
  ~ q < 1 -> ~ 5 < q ->
  (isInteger (Finite q) = false <-> is_fraction_in_range (Finite q)).
Proof.
  intros H1 H5. rewrite <- not_true_iff_false, isInteger_iff. simpl. split.
  - intros Hint.
    assert (Hk : forall k : Z, ~ q == inject_Z k) by (intros k Hk; eauto).
    apply Qnot_lt_le in H1, H5.
    split; [|split; [|done]].
    + apply Qle_lt_or_eq in H1 as [?|H1]; [done|].
      destruct (Hk 1%Z). by symmetry.
    + apply Qle_lt_or_eq in H5 as [?|H5]; [done|]. by destruct (Hk 5%Z).
  - intros (_ & _ & Hk) [k Hq]. by destruct (Hk k).
Qed.

Lemma checks_reject (n : number) :
  let res :=
    if isNaN n then Result false (Some "Rating must be a number")
    else if less n (Finite 1) || less (Finite 5) n then
      Result false (Some "Rating must be between 1 and 5")
    else if negb (isInteger n) then
      Result false (Some "Rating must be a whole number")
    else Result true None in
  error res <> Some "Rating is required"
  /\ (error res = Some "Rating must be a number" <-> n = NotANumber)
  /\ (error res = Some "Rating must be between 1 and 5"
      <-> is_out_of_range n)
  /\ (error res = Some "Rating must be a whole number"
      <-> is_fraction_in_range n)
  /\ (error res = None <-> valid res = true).
Proof.
  destruct n as [q| | |]; simpl isNaN; cbv iota zeta;
    try (simpl; by repeat split).
  destruct (less (Finite q) (Finite 1) || less (Finite 5) (Finite q))
    eqn:Hrange.
  - pose proof (proj1 (out_of_range_iff (Finite q) eq_refl) Hrange) as Hout.
    simpl error. simpl valid. repeat split; try done.
    intros (H1 & H5 & _). simpl in Hout.
    destruct Hout as [Hout|Hout].
    + destruct (Qlt_irrefl 1). by apply (Qlt_trans _ q).
    + destruct (Qlt_irrefl 5). by apply (Qlt_trans _ q).
  - assert (Hin : ~ is_out_of_range (Finite q)).
    { intros Hout%(out_of_range_iff (Finite q) eq_refl). congruence. }
    simpl in Hin.
    assert (H1 : ~ q < 1) by tauto. assert (H5 : ~ 5 < q) by tauto.
    pose proof (fraction_in_range_iff q H1 H5) as Hfrac.
    destruct (isInteger (Finite q)); cbn [negb error valid].
    + repeat split; try done.
      intros Hf%Hfrac. discriminate.
    + split; [done|]. split; [by split|].
      split; [split; [done|intros Hout; tauto]|].
      split; [|by split]. split; [intros _; by apply Hfrac|done].
Qed.

(** X16.  The error of a refused rating tells why, and the reasons are
    tried in this order: "Rating is required" exactly for [undefined]
    and [null]; "Rating must be a number" exactly for the other values
    that convert to [NaN]; "Rating must be between 1 and 5" exactly for
    those that convert to a number below 1 or above 5, an infinity
    included; "Rating must be a whole number" exactly for those that
    convert to a fraction strictly between 1 and 5.  A result has no
    error exactly when it is valid. *)
Theorem validateRating_rejects (r : rating) :
  let res := validateRating StringToNumber r in
  let n := to_number StringToNumber r in
  (error res = Some "Rating is required" <-> r = Undefined \/ r = Null)
  /\ (error res = Some "Rating must be a number"
      <-> r <> Undefined /\ r <> Null /\ n = NotANumber)
  /\ (error res = Some "Rating must be between 1 and 5"
      <-> r <> Undefined /\ r <> Null /\ is_out_of_range n)
  /\ (error res = Some "Rating must be a whole number"
      <-> r <> Undefined /\ r <> Null /\ is_fraction_in_range n)
  /\ (error res = None <-> valid res = true).
Proof.
  assert (Hchecked : forall r, r <> Undefined -> r <> Null ->
            let res := validateRating StringToNumber r in
            let n := to_number StringToNumber r in
            (error res = Some "Rating is required"
             <-> r = Undefined \/ r = Null)
            /\ (error res = Some "Rating must be a number"
                <-> r <> Undefined /\ r <> Null /\ n = NotANumber)
            /\ (error res = Some "Rating must be between 1 and 5"
                <-> r <> Undefined /\ r <> Null /\ is_out_of_range n)
            /\ (error res = Some "Rating must be a whole number"
                <-> r <> Undefined /\ r <> Null /\ is_fraction_in_range n)
            /\ (error res = None <-> valid res = true)).
  { clear r. intros r Hu Hn res n. subst res.
    rewrite validateRating_checks by done. cbv zeta. fold n.
    destruct (checks_reject n) as (Hreq & Hnum & Hout & Hfrac & Hok).
    cbv zeta in Hreq, Hnum, Hout, Hfrac, Hok.
    split; [|split; [|split; [|split]]]; [| | | |done].
    - split; [done|]. by intros [?|?].
    - rewrite Hnum. tauto.
    - rewrite Hout. tauto.
    - rewrite Hfrac. tauto. }
  destruct r as [| |b|n|s]; try (by apply Hchecked).
  - simpl. repeat split; try done; tauto.
  - simpl. repeat split; try done; tauto.
Qed.

End Facts.
End MenuFacts.

(** * Properties of the user service *)

Module UsersFacts.
Import Users.

(** ** The matcher decides the language *)

Lemma lang_empty_inv (w : string) : ~ lang Empty w.
Proof. intros H. inversion H. Qed.

Lemma lang_eps_inv (w : string) : lang Eps w -> w = "".
Proof. intros H. by inversion H. Qed.

Lemma lang_class_inv (p : ascii -> bool) (w : string) :
  lang (Class p) w -> exists c, w = String c "" /\ p c = true.
Proof. intros H. inversion H; subst. eauto. Qed.

Lemma lang_cat_inv (a b : regex) (w : string) :
  lang (Cat a b) w -> exists s t, w = s +:+ t /\ lang a s /\ lang b t.
Proof. intros H. inversion H; subst. eauto. Qed.

Lemma lang_alt_inv (a b : regex) (w : string) :
  lang (Alt a b) w -> lang a w \/ lang b w.
Proof. intros H. inversion H; subst; tauto. Qed.

Lemma app_empty (s t : string) : s +:+ t = "" -> s = "" /\ t = "".
Proof. by destruct s. Qed.

Lemma nullable_lang (r : regex) : nullable r = true <-> lang r "".
Proof.
  induction r as [| |p|a IHa b IHb|a IHa b IHb|a IHa]; simpl.
  - split; [done|]. by intros H%lang_empty_inv.
  - split; [constructor|done].
  - split; [done|]. by intros (c & ? & _)%lang_class_inv.
  - rewrite andb_true_iff, IHa, IHb. split.
    + intros [Ha Hb]. apply (lang_cat a b "" "" Ha Hb).
    + intros (s & t & Heq & Hs & Ht)%lang_cat_inv.
      symmetry in Heq. apply app_empty in Heq as [-> ->]. done.
  - rewrite orb_true_iff, IHa, IHb. split.
    + intros [H|H]; [by apply lang_alt_l|by apply lang_alt_r].
    + apply lang_alt_inv.
  - split; [constructor|done].
Qed.

(** A word of [Star a] that starts with [c] starts with a word of [a]
    that starts with [c]. *)
Lemma lang_star_first (a : regex) (c : ascii) (s : string) :
  lang (Star a) (String c s) ->
  exists s1 s2, s = s1 +:+ s2 /\ lang a (String c s1) /\ lang (Star a) s2.
Proof.
  intros H. remember (Star a) as r eqn:Hr. remember (String c s) as w eqn:Hw.
  induction H as [| | | | | |a' s1 s2 H1 _ H2 IH2]; try discriminate.
  injection Hr as ->. destruct s1 as [|c1 s1]; simpl in Hw.
  - by apply IH2.
  - injection Hw as -> <-. eauto.
Qed.

Lemma derive_lang (r : regex) (c : ascii) (s : string) :
  lang (derive c r) s <-> lang r (String c s).
Proof.
  revert s.
  induction r as [| |p|a IHa b IHb|a IHa b IHb|a IHa]; intros s; simpl.
  - split; by intros H%lang_empty_inv.
  - split; [by intros H%lang_empty_inv|by intros H%lang_eps_inv].
  - destruct (p c) eqn:Hp; split.
    + intros ->%lang_eps_inv. by constructor.
    + intros (c' & [= <- ->] & _)%lang_class_inv. constructor.
    + by intros H%lang_empty_inv.
    + intros (c' & [= <- ->] & Hc)%lang_class_inv. congruence.
  - assert (Hcat : lang (Cat (derive c a) b) s ->
                   lang (Cat a b) (String c s)).
    { intros (s1 & s2 & -> & H1 & H2)%lang_cat_inv.
      apply IHa in H1. apply (lang_cat a b (String c s1) s2 H1 H2). }
    assert (Hinv : lang (Cat a b) (String c s) ->
                   lang (Cat (derive c a) b) s
                   \/ (lang a "" /\ lang b (String c s))).
    { intros (s1 & s2 & Heq & H1 & H2)%lang_cat_inv.
      destruct s1 as [|c1 s1].
      - change ("" +:+ s2) with s2 in Heq. right. by subst.
      - change (String c1 s1 +:+ s2) with (String c1 (s1 +:+ s2)) in Heq.
        injection Heq as <- ->. left. constructor; [by apply IHa|done]. }
    destruct (nullable a) eqn:Hnull.
    + split.
      * intros [H|H]%lang_alt_inv; [by apply Hcat|].
        apply nullable_lang in Hnull.
        apply (lang_cat a b "" (String c s) Hnull). by apply IHb.
      * intros [H|[_ H]]%Hinv; [by apply lang_alt_l|].
        apply lang_alt_r. by apply IHb.
    + split; [done|].
      intros [H|[H _]]%Hinv; [done|].
      apply nullable_lang in H. congruence.
  - split.
    + intros [H|H]%lang_alt_inv;
        [apply lang_alt_l; by apply IHa|apply lang_alt_r; by apply IHb].
    + intros [H|H]%lang_alt_inv;
        [apply lang_alt_l; by apply IHa|apply lang_alt_r; by apply IHb].
  - split.
    + intros (s1 & s2 & -> & H1 & H2)%lang_cat_inv.
      apply IHa in H1. apply (lang_star_cons a (String c s1) s2 H1 H2).
    + intros (s1 & s2 & -> & H1 & H2)%lang_star_first.
      constructor; [by apply IHa|done].
Qed.

Lemma test_lang (r : regex) (s : string) : test r s = true <-> lang r s.
Proof.
  revert r. induction s as [|c s IH]; intros r; simpl.
  - apply nullable_lang.
  - by rewrite IH, derive_lang.
Qed.

(** ** The addresses that [emailRegex] accepts *)

Lemma lang_star_word (s : string) :
  lang (Star (Class not_space_nor_at)) s <-> no_space_nor_at s.
Proof.
  split.
  - intros H. remember (Star (Class not_space_nor_at)) as r eqn:Hr.
    induction H as [| | | | | |a s1 s2 H1 _ H2 IH2]; try discriminate; [done|].
    injection Hr as ->.
    apply lang_class_inv in H1 as (c & -> & Hc). simpl. split; [done|].
    by apply IH2.
  - induction s as [|c s IH]; simpl; [constructor|].
    intros [Hc Hs].
    apply (lang_star_cons _ (String c "") s); [by constructor|by apply IH].
Qed.

Lemma lang_plus_word (s : string) :
  lang (Plus (Class not_space_nor_at)) s <-> word s.
Proof.
  unfold Plus, word. split.
  - intros (s1 & s2 & -> & H1 & H2)%lang_cat_inv.
    apply lang_class_inv in H1 as (c & -> & Hc).
    apply lang_star_word in H2. simpl. by split.
  - intros [Hne Hs]. destruct s as [|c s]; [done|].
    destruct Hs as [Hc Hs].
    apply (lang_cat _ _ (String c "") s); [by constructor|].
    by apply lang_star_word.
Qed.

(** X17.  [emailRegex] accepts exactly the addresses of the form
    [local@domain.tail] where [local], [domain] and [tail] are non-empty
    and contain neither white space nor [@] (they may contain dots).
    Hence an accepted address has no white space and exactly one [@]. *)
Theorem emailRegex_accepts (s : string) :
  test emailRegex s = true
  <-> exists l d t,
        s = l +:+ "@" +:+ d +:+ "." +:+ t /\ word l /\ word d /\ word t.
Proof.
  rewrite test_lang. unfold emailRegex. split.
  - intros (l & r1 & -> & Hl & H1)%lang_cat_inv.
    apply lang_cat_inv in H1 as (at_ & r2 & -> & Hat & H2).
    apply lang_cat_inv in H2 as (d & r3 & -> & Hd & H3).
    apply lang_cat_inv in H3 as (dot & t & -> & Hdot & Ht).
    apply lang_class_inv in Hat as (c1 & -> & Hc1).
    apply lang_class_inv in Hdot as (c2 & -> & Hc2).
    apply Ascii.eqb_eq in Hc1 as <-. apply Ascii.eqb_eq in Hc2 as <-.
    exists l, d, t. by rewrite !lang_plus_word in *.
  - intros (l & d & t & -> & Hl & Hd & Ht).
    apply lang_cat; [by apply lang_plus_word|].
    apply (lang_cat _ _ "@"); [by constructor|].
    apply lang_cat; [by apply lang_plus_word|].
    apply (lang_cat _ _ "."); [by constructor|].
    by apply lang_plus_word.
Qed.

(** ** Registration and login *)

Section Service.

Variable same_email : string -> string -> bool.
Variable bcrypt_hash : string -> Z -> string -> string.
Variable bcrypt_compare : string -> string -> bool.

Lemma missing_false (field : option string) :
  missing field = false -> exists s, field = Some s /\ s <> "".
Proof.
  destruct field as [s|]; simpl; [|done].
  intros Hs%String.eqb_neq. eauto.
Qed.

(** Either the table is untouched and the answer is no 201, or the
    request passed every check and one row was appended. *)
Lemma register_effect (c : conditions) (req : register_request) (db : database) :
  ((register same_email bcrypt_hash c req db).2 = db
   /\ forall resp, (register same_email bcrypt_hash c req db).1 = Some resp ->
                   code resp <> 201)
  \/ exists address password name,
       reg_email req = Some address
       /\ reg_password req = Some password
       /\ reg_full_name req = Some name
       /\ name <> ""
       /\ test emailRegex address = true
       /\ (6 <= String.length password)%nat
       /\ select_by_email same_email db address = []
       /\ exists ph,
            ph <> Some ""
            /\ register same_email bcrypt_hash c req db
               = (Some (Response 201
                          (Registered "User registered successfully"
                                      (next_id db) address name)),
                  Database
                    (users db
                     ++ [Row (next_id db) address
                             (bcrypt_hash password SALT_ROUNDS (salt c))
                             name ph])
                    (next_id db + 1)).
Proof.
  unfold register.
  destruct (missing (reg_email req)) eqn:He; simpl;
    [left; split; [done|by intros ? [= <-]]|].
  destruct (missing (reg_password req)) eqn:Hp; simpl;
    [left; split; [done|by intros ? [= <-]]|].
  destruct (missing (reg_full_name req)) eqn:Hn; simpl;
    [left; split; [done|by intros ? [= <-]]|].
  apply missing_false in He as (address & -> & _).
  apply missing_false in Hp as (password & -> & _).
  apply missing_false in Hn as (name & -> & Hname). simpl.
  destruct (test emailRegex address) eqn:Htest; simpl;
    [|left; split; [done|by intros ? [= <-]]].
  destruct (Z.of_nat (String.length password) <? 6) eqn:Hlen; simpl;
    [left; split; [done|by intros ? [= <-]]|].
  apply Z.ltb_ge in Hlen.
  destruct (select_ok c); simpl; [|left; split; [done|by intros ? [= <-]]].
  destruct (select_by_email same_email db address) as [|r rs] eqn:Hsel; simpl;
    [|left; split; [done|by intros ? [= <-]]].
  destruct (hash_ok c); simpl; [|left; split; [done|done]].
  destruct (insert_ok c); simpl; [|left; split; [done|by intros ? [= <-]]].
  right. exists address, password, name.
  repeat (split; [done || lia|]).
  eexists. split; [|done].
  destruct (reg_phone req) as [ph|]; [|done].
  destruct (String.eqb ph "") eqn:Hph; [done|].
  apply String.eqb_neq in Hph. congruence.
Qed.

Lemma select_none (db : database) (address : string) :
  select_by_email same_email db address = [] ->
  forall r, r ∈ users db -> same_email (email r) address = false.
Proof.
  unfold select_by_email. intros Hsel r Hr.
  destruct (same_email (email r) address) eqn:Heq; [|done].
  assert (In r (List.filter (fun r => same_email (email r) address) (users db)))
    as Hin by (apply filter_In; split; [by apply list_elem_of_In|done]).
  by rewrite Hsel in Hin.
Qed.




(** X19.  Register, then log in.  When a registration was answered 201
    and bcrypt accepts a password against its own hash (the comparison
    of addresses being reflexive, the query and bcrypt answering), the
    login with the same address and password answers 200 with the id,
    address and name of the registration; with a non-empty password
    that bcrypt does not accept against the stored hash it answers 401
    "Invalid email or password". *)
Theorem login_after_register
  (c c' : conditions) (req : register_request) (db : database)
  (resp : response) :
  (forall a, same_email a a = true) ->
  (forall p r s, bcrypt_compare p (bcrypt_hash p r s) = true) ->
  (register same_email bcrypt_hash c req db).1 = Some resp ->
  code resp = 201 ->
  select_ok c' = true ->
  compare_ok c' = true ->
  let db' := (register same_email bcrypt_hash c req db).2 in
  exists address password name ph,
    reg_email req = Some address
    /\ reg_password req = Some password
    /\ resp = Response 201
                (Registered "User registered successfully" (next_id db)
                            address name)
    /\ login same_email bcrypt_compare c'
         (LoginRequest (Some address) (Some password)) db'
       = Response 200
           (LoggedIn "Login successful" (next_id db) address name ph)
    /\ forall password',
         password' <> "" ->
         bcrypt_compare password'
           (bcrypt_hash password SALT_ROUNDS (salt c)) = false ->
         login same_email bcrypt_compare c'
           (LoginRequest (Some address) (Some password')) db'
         = Response 401 (Error "Invalid email or password").
Proof.
  intros Hrefl Hbcrypt Hresp Hcode Hsel' Hcmp' db'. subst db'.
  destruct (register_effect c req db)
    as [[_ Hno]|(address & password & name & He & Hp & _ & _ & Htest & Hlen
                 & Hsel & ph & _ & Hrun)]; [by destruct (Hno resp)|].
  rewrite Hrun in Hresp |- *. simpl in Hresp. injection Hresp as <-.
  exists address, password, name, ph.
  split; [done|]. split; [done|]. split; [done|].
  assert (Haddress : String.eqb address "" = false).
  { apply String.eqb_neq. by intros ->. }
  assert (Hselect : select_by_email same_email
                      (Database
                         (users db
                          ++ [Row (next_id db) address
                                  (bcrypt_hash password SALT_ROUNDS (salt c))
                                  name ph])
                         (next_id db + 1)) address
                    = [Row (next_id db) address
                           (bcrypt_hash password SALT_ROUNDS (salt c))
                           name ph]).
  { unfold select_by_email in *. simpl. rewrite List.filter_app, Hsel. simpl.
    by rewrite Hrefl. }
  split.
  - unfold login. simpl. rewrite Haddress.
    replace (String.eqb password "") with false
      by (symmetry; apply String.eqb_neq; intros ->; simpl in Hlen; lia).
    simpl. rewrite Hsel', Hselect. simpl. by rewrite Hcmp', Hbcrypt.
  - intros password' Hne Hwrong. unfold login. simpl. rewrite Haddress.
    replace (String.eqb password' "") with false
      by (symmetry; by apply String.eqb_neq).
    simpl. rewrite Hsel', Hselect. simpl. by rewrite Hcmp', Hwrong.
Qed.

(** X20.  [login] answers 200 only for a password that bcrypt accepts
    against the stored hash of the first row with the given address, and
    then returns that row's id, address, name and phone; and every 401
    is the same response, whether the address is unknown or the password
    wrong. *)
Theorem login_needs_the_password
  (c : conditions) (req : login_request) (db : database) :
  let resp := login same_email bcrypt_compare c req db in
  (code resp = 200 ->
   exists address password user rest,
     login_email req = Some address
     /\ login_password req = Some password
     /\ select_by_email same_email db address = user :: rest
     /\ bcrypt_compare password (password_hash user) = true
     /\ resp = Response 200
                 (LoggedIn "Login successful" (id user) (email user)
                           (full_name user) (phone user)))
  /\ (code resp = 401 ->
      resp = Response 401 (Error "Invalid email or password")).
Proof.
  intros resp. subst resp. unfold login.
  destruct (missing (login_email req)) eqn:He; simpl; [by split|].
  destruct (missing (login_password req)) eqn:Hp; simpl; [by split|].
  apply missing_false in He as (address & -> & _).
  apply missing_false in Hp as (password & -> & _). simpl.
  destruct (select_ok c); simpl; [|by split].
  destruct (select_by_email same_email db address) as [|user rest] eqn:Hsel;
    [by split|].
  destruct (compare_ok c); simpl; [|by split].
  destruct (bcrypt_compare password (password_hash user)) eqn:Hcmp; simpl;
    [|by split].
  split; [|done]. intros _. exists address, password, user, rest. done.
Qed.

(** X21.  A registration is all or nothing.  Either the table is left
    as it was and the answer, if there is one, is no 201; or the request
    had all three fields, an address that [emailRegex] accepts, a
    password of at least 6 characters and an address that no row has,
    and then the answer is 201 with the counter as id, and exactly one
    row is appended, holding the bcrypt hash and not the password, and
    the counter advances by one. *)
Theorem register_is_all_or_nothing
  (c : conditions) (req : register_request) (db : database) :
  let r := register same_email bcrypt_hash c req db in
  (r.2 = db /\ forall resp, r.1 = Some resp -> code resp <> 201)
  \/ exists address password name ph,
       reg_email req = Some address
       /\ reg_password req = Some password
       /\ reg_full_name req = Some name
       /\ test emailRegex address = true
       /\ (6 <= String.length password)%nat
       /\ (forall row, row ∈ users db ->
                       same_email (email row) address = false)
       /\ r.1 = Some (Response 201
                        (Registered "User registered successfully"
                                    (next_id db) address name))
       /\ users r.2
          = users db
            ++ [Row (next_id db) address
                    (bcrypt_hash password SALT_ROUNDS (salt c)) name ph]
       /\ next_id r.2 = next_id db + 1.
Proof.
  intros r. subst r.
  destruct (register_effect c req db)
    as [H|(address & password & name & He & Hp & Hn & _ & Htest & Hlen
           & Hsel & ph & _ & ->)]; [by left|].
  right. exists address, password, name, ph.
  repeat (split; [done|]). split; [by apply select_none|done].
Qed.

End Service.


(** X19 at work: Ada registers and logs in. *)
Lemma login_after_register_witness :
  login exact_email toy_compare fine
    (LoginRequest (Some "ada@example.org") (Some "lovelace"))
    (register exact_email toy_hash fine ada empty_table).2
  = Response 200 (LoggedIn "Login successful" 1 "ada@example.org" "Ada" None).
Proof.
  destruct (login_after_register exact_email toy_hash toy_compare fine fine
              ada empty_table
              (Response 201
                 (Registered "User registered successfully" 1
                             "ada@example.org" "Ada")))
    as (address & password & name & ph & He & Hp & _ & Hlogin & _).
  - intros a. apply String.eqb_refl.
  - intros p r s. unfold toy_compare, toy_hash. apply String.eqb_refl.
  - reflexivity.
  - reflexivity.
  - reflexivity.
  - reflexivity.
  - injection He as <-. injection Hp as <-.
    pose proof Hlogin as Hc. vm_compute in Hc. injection Hc as <- <-.
    exact Hlogin.
Defined.

End UsersFacts.
